(** * Client-side job control surface: [static/script.js]

    A shallow embedding of the page script that starts, polls, stops and
    displays a remote scraping job, with the properties of its control
    state machine.

    The file is organised as follows.
    - [JsNumber]: the Number values of the script (IEEE 754 binary64) with
      the conversions the script relies on ([toFixed], [parseInt],
      [parseFloat], conversions from and to strings, [trim]).
    - [JsValue]: the values produced by [response.json()] and the language
      coercions applied to them ([ToBoolean], [ToNumber], [ToString],
      property reads).
    - [JsString]: [split] and [map(trim).filter(Boolean)] on strings.
    - [Script]: the page, its timers, the functions of [script.js] and the
      event loop that runs them.
    - The properties: the Poller, the polling tick, the progress bars, the
      click handlers, the Result Fetcher. *)

From Stdlib Require Import ZArith QArith Qround Qpower String Ascii List Bool Lia Lqa.
From Stdlib Require Import Floats.SpecFloat.
From stdpp Require Import gmap strings pretty.

Local Open Scope Z_scope.

(** ** Numbers *)

Module JsNumber.

(** A Number is a binary64 float: [S754_finite s m e] stands for
    [(-1)^s * m * 2^e]. *)
Definition number := spec_float.

Definition prec : Z := 53.
Definition emax : Z := 1024.

Definition NaN : number := S754_nan.
Definition zero (neg : bool) : number := S754_zero neg.
Definition infinity (neg : bool) : number := S754_infinity neg.

(** The Number nearest to an integer (ties to even). *)
Definition of_Z (z : Z) : number := binary_normalize prec emax z 0 false.
Definition of_nat (n : nat) : number := of_Z (Z.of_nat n).

(** [x * y] *)
Definition mul (x y : number) : number := SFmul prec emax x y.

(** [x < y], false when either side is NaN. *)
Definition ltb (x y : number) : bool := SFltb x y.

Definition is_nan (x : number) : bool :=
  match x with S754_nan => true | _ => false end.

Definition is_zero (x : number) : bool :=
  match x with S754_zero _ => true | _ => false end.

Definition is_finite (x : number) : bool :=
  match x with S754_zero _ | S754_finite _ _ _ => true | _ => false end.

(** Exact values, as rationals. *)
Definition pow10 (j : Z) : Q :=
  match j with
  | Z0 => 1
  | Zpos p => inject_Z (10 ^ Zpos p)
  | Zneg p => 1 # (10 ^ p)
  end.

Definition magnitude (m : positive) (e : Z) : Q :=
  match e with
  | Z0 => inject_Z (Zpos m)
  | Zpos p => inject_Z (Zpos m * 2 ^ Zpos p)
  | Zneg p => Zpos m # (2 ^ p)
  end.

(** The absolute value of a finite number. *)
Definition abs_value (x : number) : Q :=
  match x with
  | S754_finite _ m e => magnitude m e
  | _ => 0
  end.

(** [m * 2^e] *)
Definition scaled (m e : Z) : Q := (inject_Z m * (2 # 1) ^ e)%Q.

Definition is_negative (x : number) : bool :=
  match x with
  | S754_finite s _ _ => s
  | _ => false
  end.

(** Decimal digits of a natural number, ["0"] for zero. *)
Definition digits (n : Z) : string := pretty (Z.to_N n).

Fixpoint zeros (n : nat) : string :=
  match n with
  | O => ""
  | S n' => String "0" (zeros n')
  end.

(** *** [Number::toString] (radix 10)

    The digits are the shortest decimal [s * 10^(n-k)], with [k] digits,
    that reads back as the same Number; among several the closest to the
    value, then the even one. *)

(** Half the distance to the neighbour below and above. A power of two
    mantissa has a closer neighbour below, unless the number is
    subnormal. *)
Definition half_gap_below (m : positive) (e : Z) : Q :=
  if Pos.eqb m (2 ^ 52) && Z.ltb (-1074) e
  then magnitude 1 (e - 2)
  else magnitude 1 (e - 1).

Definition half_gap_above (e : Z) : Q := magnitude 1 (e - 1).

(** Does the rational [v] read back as [m * 2^e]?  The ends of the
    rounding interval belong to it when the mantissa is even. *)
Definition reads_back (m : positive) (e : Z) (v : Q) : bool :=
  let a := magnitude m e in
  let lo := (a - half_gap_below m e)%Q in
  let hi := (a + half_gap_above e)%Q in
  match (lo ?= v)%Q, (v ?= hi)%Q with
  | Lt, Lt => true
  | Eq, Lt | Lt, Eq => Z.even (Zpos m)
  | _, _ => false
  end.

(** The decade of a positive rational: the [n] with
    [10^(n-1) <= a < 10^n]. Below 1 it is found by scaling [a] up, in no
    more steps than the denominator has digits. *)
Fixpoint decade_below (fuel : nat) (a : Q) (j : Z) : Z :=
  match fuel with
  | O => 1 - j
  | S fuel' =>
      if Qle_bool 1 (a * pow10 j)%Q then 1 - j
      else decade_below fuel' a (j + 1)
  end.

Definition decade (a : Q) : Z :=
  if Qle_bool 1 a
  then Z.of_nat (String.length (digits (Qfloor a)))
  else decade_below (String.length (digits (Zpos (Qden a)))) a 1.

(** The candidate with [k] digits: [(s, n)], if one reads back. *)
Definition candidate (m : positive) (e : Z) (n0 : Z) (k : Z) (last : bool)
  : option (Z * Z) :=
  let a := magnitude m e in
  let scale := pow10 (n0 - k) in
  let lo := Qfloor (a / scale)%Q in
  let hi := lo + 1 in
  let vlo := (inject_Z lo * scale)%Q in
  let vhi := (inject_Z hi * scale)%Q in
  let pick_lo := Some (lo, n0) in
  let pick_hi := if Z.eqb hi (10 ^ k) then Some (10 ^ (k - 1), n0 + 1)
                 else Some (hi, n0) in
  let nearest :=
    match ((a - vlo) ?= (vhi - a))%Q with
    | Lt => pick_lo
    | Gt => pick_hi
    | Eq => if Z.even lo then pick_lo else pick_hi
    end in
  match reads_back m e vlo, reads_back m e vhi with
  | true, true => nearest
  | true, false => pick_lo
  | false, true => pick_hi
  | false, false => if last then nearest else None
  end.

Fixpoint shortest_from (fuel : nat) (m : positive) (e : Z) (n0 : Z) (k : Z)
  : Z * Z * Z :=
  match fuel with
  | O => match candidate m e n0 k true with
         | Some (s, n) => (s, n, k)
         | None => (0, n0, k)
         end
  | S fuel' =>
      match candidate m e n0 k false with
      | Some (s, n) => (s, n, k)
      | None => shortest_from fuel' m e n0 (k + 1)
      end
  end.

(** Seventeen digits always identify a binary64 value. *)
Definition shortest (m : positive) (e : Z) : Z * Z * Z :=
  shortest_from 16 m e (decade (magnitude m e)) 1.

Definition first_chars (n : Z) (s : string) : string := substring 0 (Z.to_nat n) s.
Definition after_chars (n : Z) (s : string) : string :=
  substring (Z.to_nat n) (String.length s - Z.to_nat n) s.

Definition format_shortest (s n k : Z) : string :=
  let ds := digits s in
  if Z.leb k n && Z.leb n 21 then ds +:+ zeros (Z.to_nat (n - k))
  else if Z.ltb 0 n && Z.leb n 21 then first_chars n ds +:+ "." +:+ after_chars n ds
  else if Z.ltb (-6) n && Z.leb n 0 then "0." +:+ zeros (Z.to_nat (- n)) +:+ ds
  else
    let ex := n - 1 in
    let sg := if Z.ltb ex 0 then "-" else "+" in
    if Z.eqb k 1 then ds +:+ "e" +:+ sg +:+ digits (Z.abs ex)
    else first_chars 1 ds +:+ "." +:+ after_chars 1 ds +:+ "e" +:+ sg +:+ digits (Z.abs ex).

Definition to_string (x : number) : string :=
  match x with
  | S754_nan => "NaN"
  | S754_zero _ => "0"
  | S754_infinity s => if s then "-Infinity" else "Infinity"
  | S754_finite sg m e =>
      let '(s, n, k) := shortest m e in
      (if sg then "-" else "") +:+ format_shortest s n k
  end.

(** *** [Number.prototype.toFixed(1)] *)

(** The integer [n] for which [n / 10 - a] is as close to zero as
    possible, the larger one when there are two. *)
Definition tenths (a : Q) : Z := Qfloor (a * 10 + (1 # 2))%Q.

(** The digits of [n] with a point before the last one, padded with a
    zero when [n] has a single digit. *)
Definition point_before_last (n : Z) : string :=
  let m := digits n in
  let m := if Nat.leb (String.length m) 1 then "0" +:+ m else m in
  let k := Z.of_nat (String.length m) in
  first_chars (k - 1) m +:+ "." +:+ after_chars (k - 1) m.

Definition toFixed1 (x : number) : string :=
  if negb (is_finite x) then to_string x
  else if Qle_bool (pow10 21) (abs_value x) then to_string x
  else (if is_negative x then "-" else "") +:+ point_before_last (tenths (abs_value x)).


(** *** Reading numbers from text *)

(** The Number nearest to [p / q] (ties to even). *)
Definition of_ratio (neg : bool) (p q : positive) : number :=
  let '(mz, ez, lz) := SFdiv_core_binary prec emax (Zpos p) 0 (Zpos q) 0 in
  binary_round_aux prec emax neg mz ez lz.

(** The Number nearest to [d * 10^ex], for a natural number [d]. Beyond
    the range of binary64 the power of ten is not computed. *)
Definition of_decimal (d ex : Z) : number :=
  match d with
  | Zpos p =>
      let len := Z.of_nat (String.length (digits d)) in
      if Z.ltb 400 (len + ex) then infinity false
      else if Z.ltb (len + ex) (-400) then zero false
      else match ex with
           | Z0 => of_ratio false p 1
           | Zpos k => of_ratio false (p * 10 ^ k) 1
           | Zneg k => of_ratio false p (10 ^ k)
           end
  | _ => zero false
  end.

Definition neg (x : number) : number := SFopp x.

Definition in_range (lo hi : nat) (c : ascii) : bool :=
  Nat.leb lo (nat_of_ascii c) && Nat.leb (nat_of_ascii c) hi.

Definition decimal_digit (c : ascii) : option Z :=
  if in_range 48 57 c then Some (Z.of_nat (nat_of_ascii c - 48)) else None.

Definition hex_digit (c : ascii) : option Z :=
  if in_range 48 57 c then Some (Z.of_nat (nat_of_ascii c - 48))
  else if in_range 97 102 c then Some (Z.of_nat (nat_of_ascii c - 87))
  else if in_range 65 70 c then Some (Z.of_nat (nat_of_ascii c - 55))
  else None.

Definition octal_digit (c : ascii) : option Z :=
  if in_range 48 55 c then Some (Z.of_nat (nat_of_ascii c - 48)) else None.

Definition binary_digit (c : ascii) : option Z :=
  if in_range 48 49 c then Some (Z.of_nat (nat_of_ascii c - 48)) else None.

(** The longest run of digits at the start of [s]: its value on top of
    [acc], the number of digits read, and what follows. *)
Fixpoint scan_digits (digit : ascii -> option Z) (radix : Z) (s : string)
    (acc cnt : Z) : Z * Z * string :=
  match s with
  | String c s' =>
      match digit c with
      | Some d => scan_digits digit radix s' (acc * radix + d) (cnt + 1)
      | None => (acc, cnt, s)
      end
  | EmptyString => (acc, cnt, EmptyString)
  end.

(** White space and line terminators, among the code units below 256. *)
Definition is_space (c : ascii) : bool :=
  in_range 9 13 c || Nat.eqb (nat_of_ascii c) 32 || Nat.eqb (nat_of_ascii c) 160.

Fixpoint trim_start (s : string) : string :=
  match s with
  | String c s' => if is_space c then trim_start s' else s
  | EmptyString => EmptyString
  end.

Fixpoint trim_end (s : string) : string :=
  match s with
  | String c s' =>
      match trim_end s' with
      | EmptyString => if is_space c then EmptyString else String c EmptyString
      | t => String c t
      end
  | EmptyString => EmptyString
  end.

Definition trim (s : string) : string := trim_end (trim_start s).

(** A leading [-] or [+], taken off. *)
Definition split_sign (s : string) : bool * string :=
  match s with
  | String c r =>
      if Ascii.eqb c "-" then (true, r)
      else if Ascii.eqb c "+" then (false, r)
      else (false, s)
  | EmptyString => (false, s)
  end.

(** What follows a leading [0] and one of two letters, if [s] starts
    that way. *)
Definition after_prefix (lower upper : ascii) (s : string) : option string :=
  match s with
  | String c (String d r) =>
      if Ascii.eqb c "0" && (Ascii.eqb d lower || Ascii.eqb d upper)
      then Some r else None
  | _ => None
  end.

(** *** [parseInt(string)], without a radix argument *)
Definition parseInt (s : string) : number :=
  let '(negative, s1) := split_sign (trim_start s) in
  let '(v, cnt, _) :=
    match after_prefix "x" "X" s1 with
    | Some r => scan_digits hex_digit 16 r 0 0
    | None => scan_digits decimal_digit 10 s1 0 0
    end in
  if Z.eqb cnt 0 then NaN
  else if Z.eqb v 0 then zero negative
  else of_Z (if negative then - v else v).

(** The exponent part [e], [e+] or [e-] followed by digits, if there is
    one at the start of [s]. *)
Definition scan_exponent (s : string) : Z * string :=
  match s with
  | String c r =>
      if Ascii.eqb c "e" || Ascii.eqb c "E" then
        let '(negative, r1) := split_sign r in
        let '(v, cnt, r2) := scan_digits decimal_digit 10 r1 0 0 in
        if Z.eqb cnt 0 then (0, s)
        else (if negative then - v else v, r2)
      else (0, s)
  | EmptyString => (0, s)
  end.

(** The longest unsigned decimal literal at the start of [s]
    ([Infinity], [12], [12.], [12.5], [.5], each but the first with an
    optional exponent), with its value and what follows. *)
Definition scan_unsigned (s : string) : option (number * string) :=
  if String.prefix "Infinity" s then Some (infinity false, after_chars 8 s)
  else
    let '(ip, ic, r1) := scan_digits decimal_digit 10 s 0 0 in
    let '(d, fc, r2) :=
      match r1 with
      | String c r =>
          if Ascii.eqb c "." then scan_digits decimal_digit 10 r ip 0
          else (ip, 0, r1)
      | EmptyString => (ip, 0, r1)
      end in
    if Z.eqb ic 0 && Z.eqb fc 0 then None
    else
      let '(ex, r3) := scan_exponent r2 in
      Some (of_decimal d (ex - fc), r3).

Definition scan_signed (s : string) : option (number * string) :=
  let '(negative, r) := split_sign s in
  match scan_unsigned r with
  | Some (v, rest) => Some (if negative then neg v else v, rest)
  | None => None
  end.

(** *** [parseFloat(string)] *)
Definition parseFloat (s : string) : number :=
  match scan_signed (trim_start s) with
  | Some (v, _) => v
  | None => NaN
  end.

(** An integer literal in [radix], which must make up all of [s]. *)
Definition whole_integer (digit : ascii -> option Z) (radix : Z) (s : string)
  : number :=
  match scan_digits digit radix s 0 0 with
  | (v, cnt, EmptyString) => if Z.eqb cnt 0 then NaN else of_Z v
  | _ => NaN
  end.

(** *** [StringToNumber]: the Number a string converts to *)
Definition of_string (s : string) : number :=
  let t := trim s in
  if String.eqb t "" then zero false
  else
    match after_prefix "x" "X" t, after_prefix "o" "O" t, after_prefix "b" "B" t with
    | Some r, _, _ => whole_integer hex_digit 16 r
    | _, Some r, _ => whole_integer octal_digit 8 r
    | _, _, Some r => whole_integer binary_digit 2 r
    | None, None, None =>
        match scan_signed t with
        | Some (v, EmptyString) => v
        | _ => NaN
        end
    end.

End JsNumber.

(** ** Values *)

(** What a statement or an expression of the script yields: a value, or
    an exception. *)
Inductive error := TypeError | SyntaxError | NetworkError.

Inductive completion (A : Type) :=
  | Normal (a : A)
  | Throw (e : error).
Arguments Normal {A} a.
Arguments Throw {A} e.

Module JsValue.
Import JsNumber.

(** The values [response.json()] produces, and [undefined], which
    reading an absent property yields. An object is the list of its own
    properties. Each character of a string stands for one code unit
    (below 256). *)
#[local] Unset Elimination Schemes.
Inductive value :=
  | VUndefined
  | VNull
  | VBool (b : bool)
  | VNum (n : number)
  | VStr (s : string)
  | VArr (items : list value)
  | VObj (props : list (string * value)).
#[local] Set Elimination Schemes.

(** [ToBoolean] *)
Definition ToBoolean (v : value) : bool :=
  match v with
  | VUndefined | VNull => false
  | VBool b => b
  | VNum n => negb (is_zero n || is_nan n)
  | VStr s => negb (String.eqb s "")
  | VArr _ | VObj _ => true
  end.

(** Has the object a member called [name]? *)
Definition has_prop (name : string) (props : list (string * value)) : bool :=
  existsb (fun kv => String.eqb (fst kv) name) props.

(** The value of the member called [name], [undefined] when there is
    none; of two members with the same name the later one counts, as in
    [JSON.parse]. *)
Fixpoint lookup_prop (name : string) (props : list (string * value)) : value :=
  match props with
  | [] => VUndefined
  | (k, v) :: rest =>
      if has_prop name rest then lookup_prop name rest
      else if String.eqb k name then v else VUndefined
  end.

(** [ToString]. An array is joined with commas, [null] and [undefined]
    elements giving nothing. An object from JSON has no function among
    its members: when it has a member called [toString], that member
    hides the inherited method and the conversion throws; otherwise the
    inherited method gives one fixed rendering. *)
Fixpoint ToString (v : value) : completion string :=
  match v with
  | VUndefined => Normal "undefined"
  | VNull => Normal "null"
  | VBool b => Normal (if b then "true" else "false")
  | VNum n => Normal (to_string n)
  | VStr s => Normal s
  | VArr items =>
      (fix join (l : list value) : completion string :=
         match l with
         | [] => Normal ""
         | x :: l' =>
             match match x with
                   | VUndefined | VNull => Normal ""
                   | _ => ToString x
                   end
             with
             | Throw e => Throw e
             | Normal sx =>
                 match l' with
                 | [] => Normal sx
                 | _ :: _ =>
                     match join l' with
                     | Throw e => Throw e
                     | Normal rest => Normal (sx +:+ "," +:+ rest)
                     end
                 end
             end
         end) items
  | VObj props =>
      if has_prop "toString" props then Throw TypeError
      else Normal "[object Object]"
  end.

(** [ToNumber]. Arrays and objects are converted through their string,
    and throw when that conversion does. *)
Definition ToNumber (v : value) : completion number :=
  match v with
  | VUndefined => Normal NaN
  | VNull => Normal (zero false)
  | VBool b => Normal (if b then of_Z 1 else zero false)
  | VNum n => Normal n
  | VStr s => Normal (of_string s)
  | VArr _ | VObj _ =>
      match ToString v with
      | Normal s => Normal (of_string s)
      | Throw e => Throw e
      end
  end.

(** [v.name], for the property names the script reads: of the built-in
    properties only [length] goes by one of these names. *)
Definition get (v : value) (name : string) : completion value :=
  match v with
  | VUndefined | VNull => Throw TypeError
  | VObj props => Normal (lookup_prop name props)
  | VArr items =>
      Normal (if String.eqb name "length" then VNum (of_nat (List.length items))
              else VUndefined)
  | VStr s =>
      Normal (if String.eqb name "length" then VNum (of_nat (String.length s))
              else VUndefined)
  | VBool _ | VNum _ => Normal VUndefined
  end.

(** [v > 0] *)
Definition gt0 (v : value) : completion bool :=
  match ToNumber v with
  | Normal n => Normal (ltb (zero false) n)
  | Throw e => Throw e
  end.

(** [v || ''], then converted to a string by a template literal. *)
Definition or_empty (v : value) : completion string :=
  if ToBoolean v then ToString v else Normal "".

(** What an element shows after [element.textContent = v]: nothing for
    [null] and [undefined] (the property is a nullable string), the
    string of [v] otherwise. *)
Definition text_of (v : value) : completion string :=
  match v with
  | VUndefined | VNull => Normal ""
  | _ => ToString v
  end.

End JsValue.

(** ** Strings and lists of strings *)

Module JsString.
Import JsNumber.

(** [s.split(sep)] for a one character separator: never empty. *)
Fixpoint split (sep : ascii) (s : string) : list string :=
  match s with
  | EmptyString => [EmptyString]
  | String c s' =>
      if Ascii.eqb c sep then EmptyString :: split sep s'
      else match split sep s' with
           | h :: t => String c h :: t
           | [] => [String c EmptyString]
           end
  end.

(** [list.map(x => x.trim()).filter(Boolean)] *)
Definition trimmed_entries (l : list string) : list string :=
  List.filter (fun x => negb (String.eqb x "")) (List.map trim l).

Definition comma : ascii := ",".
Definition newline : ascii := ascii_of_nat 10.
Definition dquote : string := String (ascii_of_nat 34) EmptyString.

End JsString.

(** ** The page and the script *)

Module Script.
Import JsNumber JsValue JsString.

(** *** The document *)

(** The elements the script looks up by id when it loads. *)
Inductive node :=
  | startButton | stopButton | downloadButton
  | statusMessage | linkProgressBar | detailProgressBar
  | linksFound | scrapedCount.

Definition node_index (n : node) : nat :=
  match n with
  | startButton => 0 | stopButton => 1 | downloadButton => 2
  | statusMessage => 3 | linkProgressBar => 4 | detailProgressBar => 5
  | linksFound => 6 | scrapedCount => 7
  end.

Definition same_node (n m : node) : bool :=
  Nat.eqb (node_index n) (node_index m).

(** The properties of an element the script assigns: [disabled],
    [textContent] and [style.width], each holding what was last
    assigned to it. *)
Record element := {
  disabled : bool;
  textContent : string;
  style_width : string
}.

(** A row of the results table: the content of its five cells. *)
Record row := {
  name_cell : string;
  address_cell : string;
  website_cell : string;
  email_cell : string;
  category_cell : string
}.

(** What a repeating timer runs. *)
Inductive callback := PollStatus | FetchResults.

#[global] Instance callback_eq_dec : EqDecision callback.
Proof. solve_decision. Defined.

Record timer := { run : callback; delay : Z }.

(** The variable [statusInterval]: not yet assigned, [null], or the id
    of a timer. Timer ids are positive, hence truthy. *)
Inductive handle := Unset | Null | Timer (id : positive).

Record page := {
  el_start : element;
  el_stop : element;
  el_download : element;
  el_status : element;
  el_link_bar : element;
  el_detail_bar : element;
  el_links : element;
  el_scraped : element;
  resultsBody : list row;
  statusInterval : handle;
  timers : gmap positive timer;
  next_timer : positive;
  console : list string;
  location : string
}.

Definition elem (n : node) (p : page) : element :=
  match n with
  | startButton => el_start p
  | stopButton => el_stop p
  | downloadButton => el_download p
  | statusMessage => el_status p
  | linkProgressBar => el_link_bar p
  | detailProgressBar => el_detail_bar p
  | linksFound => el_links p
  | scrapedCount => el_scraped p
  end.

Definition with_elem (n : node) (f : element -> element) (p : page) : page :=
  let pick m := if same_node m n then f (elem m p) else elem m p in
  {| el_start := pick startButton;
     el_stop := pick stopButton;
     el_download := pick downloadButton;
     el_status := pick statusMessage;
     el_link_bar := pick linkProgressBar;
     el_detail_bar := pick detailProgressBar;
     el_links := pick linksFound;
     el_scraped := pick scrapedCount;
     resultsBody := resultsBody p;
     statusInterval := statusInterval p;
     timers := timers p;
     next_timer := next_timer p;
     console := console p;
     location := location p |}.

Definition with_resultsBody (rows : list row) (p : page) : page :=
  {| el_start := el_start p; el_stop := el_stop p;
     el_download := el_download p; el_status := el_status p;
     el_link_bar := el_link_bar p; el_detail_bar := el_detail_bar p;
     el_links := el_links p; el_scraped := el_scraped p;
     resultsBody := rows;
     statusInterval := statusInterval p;
     timers := timers p;
     next_timer := next_timer p;
     console := console p;
     location := location p |}.

Definition with_statusInterval (h : handle) (p : page) : page :=
  {| el_start := el_start p; el_stop := el_stop p;
     el_download := el_download p; el_status := el_status p;
     el_link_bar := el_link_bar p; el_detail_bar := el_detail_bar p;
     el_links := el_links p; el_scraped := el_scraped p;
     resultsBody := resultsBody p;
     statusInterval := h;
     timers := timers p;
     next_timer := next_timer p;
     console := console p;
     location := location p |}.

Definition with_timers (t : gmap positive timer) (next : positive) (p : page)
  : page :=
  {| el_start := el_start p; el_stop := el_stop p;
     el_download := el_download p; el_status := el_status p;
     el_link_bar := el_link_bar p; el_detail_bar := el_detail_bar p;
     el_links := el_links p; el_scraped := el_scraped p;
     resultsBody := resultsBody p;
     statusInterval := statusInterval p;
     timers := t;
     next_timer := next;
     console := console p;
     location := location p |}.

Definition with_console (lines : list string) (p : page) : page :=
  {| el_start := el_start p; el_stop := el_stop p;
     el_download := el_download p; el_status := el_status p;
     el_link_bar := el_link_bar p; el_detail_bar := el_detail_bar p;
     el_links := el_links p; el_scraped := el_scraped p;
     resultsBody := resultsBody p;
     statusInterval := statusInterval p;
     timers := timers p;
     next_timer := next_timer p;
     console := lines;
     location := location p |}.

Definition with_location (href : string) (p : page) : page :=
  {| el_start := el_start p; el_stop := el_stop p;
     el_download := el_download p; el_status := el_status p;
     el_link_bar := el_link_bar p; el_detail_bar := el_detail_bar p;
     el_links := el_links p; el_scraped := el_scraped p;
     resultsBody := resultsBody p;
     statusInterval := statusInterval p;
     timers := timers p;
     next_timer := next_timer p;
     console := console p;
     location := href |}.

(** *** Statements: state and exceptions *)

(** A piece of script takes the page to a new page and completes
    normally or throws; what it assigned before throwing stays. *)
Definition M (A : Type) : Type := page -> completion A * page.

#[global] Instance M_ret : MRet M := fun A a p => (Normal a, p).

#[global] Instance M_bind : MBind M := fun A B f c p =>
  match c p with
  | (Normal a, p') => f a p'
  | (Throw e, p') => (Throw e, p')
  end.

Definition throw {A} (e : error) : M A := fun p => (Throw e, p).

(** [try { body } catch (error) { handler }] *)
Definition try_catch {A} (body : M A) (handler : error -> M A) : M A :=
  fun p =>
    match body p with
    | (Normal a, p') => (Normal a, p')
    | (Throw e, p') => handler e p'
    end.

Definition lift {A} (c : completion A) : M A := fun p => (c, p).
Definition gets {A} (f : page -> A) : M A := fun p => (Normal (f p), p).
Definition modify (f : page -> page) : M unit := fun p => (Normal tt, f p).

(** [if (b) { c }] *)
Definition when (b : bool) (c : M unit) : M unit :=
  if b then c else mret tt.

(** The page a piece of script leaves. *)
Definition exec {A} (c : M A) (p : page) : page := snd (c p).

(** [node.disabled = b] *)
Definition set_disabled (n : node) (b : bool) : M unit :=
  modify (with_elem n (fun e =>
    {| disabled := b; textContent := textContent e;
       style_width := style_width e |})).

(** [node.textContent = s], for a string [s] *)
Definition set_textContent (n : node) (s : string) : M unit :=
  modify (with_elem n (fun e =>
    {| disabled := disabled e; textContent := s;
       style_width := style_width e |})).

(** [node.style.width = s] *)
Definition set_width (n : node) (s : string) : M unit :=
  modify (with_elem n (fun e =>
    {| disabled := disabled e; textContent := textContent e;
       style_width := s |})).

(** [data.name] *)
Definition prop (data : value) (name : string) : M value :=
  lift (get data name).

(** [console.error(label, error)] *)
Definition console_error (label : string) : M unit :=
  modify (fun p => with_console (console p ++ [label]) p).

(** *** Timers *)

(** [setInterval(callback, delay)]: arms a repeating timer and returns
    its id, which no earlier timer had. *)
Definition setInterval (cb : callback) (ms : Z) : M positive :=
  fun p =>
    let id := next_timer p in
    (Normal id,
     with_timers (<[id := {| run := cb; delay := ms |}]> (timers p))
                 (Pos.succ id) p).

(** [clearInterval(handle)]: cancels the timer, if the handle is the id
    of one; otherwise does nothing. *)
Definition clearInterval (h : handle) : M unit :=
  match h with
  | Timer id => modify (fun p => with_timers (delete id (timers p)) (next_timer p) p)
  | Unset | Null => mret tt
  end.

Definition handle_truthy (h : handle) : bool :=
  match h with
  | Timer _ => true
  | Unset | Null => false
  end.

(** *** Requests and replies *)

Inductive request :=
  | GET (url : string)
  | POST (url : string) (body : option value).

(** How a request ends: the [fetch] promise rejects, or a response
    arrives, with its [ok] flag and the value its body parses to, if it
    is JSON. *)
Inductive reply :=
  | Rejected
  | Response (ok : bool) (body : option value).

(** [const response = await fetch(...); const data = await response.json();] *)
Definition receive (r : reply) : M (bool * value) :=
  match r with
  | Rejected => throw NetworkError
  | Response ok None => throw SyntaxError
  | Response ok (Some data) => mret (ok, data)
  end.

(** *** The Poller: [startPollingStatus], [stopPollingStatus] *)

Definition stopPollingStatus : M unit :=
  h ← gets statusInterval;
  clearInterval h;;
  modify (with_statusInterval Null).

(** [startPollingStatus] arms the timer whose callback is the polling
    tick below. *)
Definition startPollingStatus : M unit :=
  h ← gets statusInterval;
  when (handle_truthy h) (clearInterval h);;
  id ← setInterval PollStatus 2000;
  modify (with_statusInterval (Timer id)).

(** [(x * 100).toFixed(1)] *)
Definition percent (x : value) : completion string :=
  match ToNumber x with
  | Normal n => Normal (toFixed1 (mul n (of_Z 100)))
  | Throw e => Throw e
  end.

(** [node.textContent = v], for a value [v]: the value is converted
    first, and nothing is assigned when that throws. *)
Definition assign_textContent (n : node) (v : value) : M unit :=
  text ← lift (text_of v);
  set_textContent n text.

Definition updateUI (data : value) : M unit :=
  message ← prop data "status_message";
  assign_textContent statusMessage message;;
  link ← prop data "link_collection_progress";
  linkProgress ← lift (percent link);
  set_width linkProgressBar (linkProgress +:+ "%");;
  set_textContent linkProgressBar (linkProgress +:+ "%");;
  detail ← prop data "detail_scraping_progress";
  detailProgress ← lift (percent detail);
  set_width detailProgressBar (detailProgress +:+ "%");;
  set_textContent detailProgressBar (detailProgress +:+ "%");;
  links ← prop data "link_count";
  assign_textContent linksFound links;;
  scraped ← prop data "scraped_count";
  scraped_text ← lift (ToString scraped);
  total ← prop data "total_to_scrape";
  total_text ← lift (ToString total);
  set_textContent scrapedCount (scraped_text +:+ " / " +:+ total_text).

(** [data.results_df && data.results_df.length > 0] *)
Definition results_available (data : value) : M bool :=
  df ← prop data "results_df";
  if ToBoolean df then
    len ← prop df "length";
    lift (gt0 len)
  else mret false.

(** The polling tick, in two parts: the request it sends when the timer
    fires, and what it does when the reply is there. *)
Definition poll_request : M request := mret (GET "/status").

Definition poll_tick (r : reply) : M unit :=
  try_catch
    ('(ok, data) ← receive r;
     updateUI data;;
     active ← prop data "scraping_active";
     locked ← gets (fun p => disabled (elem startButton p));
     when (negb (ToBoolean active) && locked)
       (stopPollingStatus;;
        set_disabled startButton false;;
        set_disabled stopButton true;;
        available ← results_available data;
        when available (set_disabled downloadButton false)))
    (fun _ =>
       console_error "Error polling status:";;
       set_textContent statusMessage "Error connecting to server. Polling stopped.";;
       stopPollingStatus).

(** *** The Result Fetcher: [fetchAndDisplayResults] *)

Definition anchor (href : string) : string :=
  "<a href=" +:+ dquote +:+ href +:+ dquote +:+ " target=" +:+ dquote
    +:+ "_blank" +:+ dquote +:+ ">" +:+ href +:+ "</a>".

(** The row built for one item. *)
Definition make_row (item : value) : M row :=
  name ← prop item "Name";
  name_text ← lift (or_empty name);
  address ← prop item "Address";
  address_text ← lift (or_empty address);
  website ← prop item "Website";
  website_text ← lift (if ToBoolean website then ToString website else Normal "");
  email ← prop item "Final Email";
  email_text ← lift (or_empty email);
  category ← prop item "Category";
  category_text ← lift (or_empty category);
  mret {| name_cell := name_text;
          address_cell := address_text;
          website_cell := if ToBoolean website then anchor website_text else "";
          email_cell := email_text;
          category_cell := category_text |}.

Definition appendChild (r : row) : M unit :=
  modify (fun p => with_resultsBody (resultsBody p ++ [r]) p).

Fixpoint append_rows (items : list value) : M unit :=
  match items with
  | [] => mret tt
  | item :: rest =>
      r ← make_row item;
      appendChild r;;
      append_rows rest
  end.

(** [results.forEach(item => ...)]: only an array has [forEach]. *)
Definition forEach_row (results : value) : M unit :=
  match results with
  | VArr items => append_rows items
  | _ => throw TypeError
  end.

Definition results_request : M request := mret (GET "/get-results").

Definition fetchAndDisplayResults (r : reply) : M unit :=
  try_catch
    ('(ok, results) ← receive r;
     modify (with_resultsBody []);;
     forEach_row results;;
     len ← prop results "length";
     some ← lift (gt0 len);
     when some (set_disabled downloadButton false))
    (fun _ => console_error "Error fetching results:").

(** *** The Job Controller: the click handlers *)

(** The [value] of each input of the form. *)
Record form := {
  general_search_term : string;
  categories : string;
  zipcodes : string;
  max_workers : string;
  max_scrolls : string;
  scroll_pause : string;
  scrape_timeout : string;
  headless_mode : string
}.

(** [JSON.stringify] of a Number: [null] unless it is finite. *)
Definition json_number (n : number) : value :=
  match n with
  | S754_finite _ _ _ => VNum n
  | S754_zero _ => VNum (zero false)
  | S754_nan | S754_infinity _ => VNull
  end.

(** [JSON.stringify(config)], as the value the text stands for. *)
Definition config (f : form) : value :=
  VObj [
    ("general_search_term", VStr (general_search_term f));
    ("categories", VArr (List.map VStr (trimmed_entries (split comma (categories f)))));
    ("zipcodes", VArr (List.map VStr (trimmed_entries (split newline (zipcodes f)))));
    ("max_workers", json_number (parseInt (max_workers f)));
    ("max_scrolls", json_number (parseInt (max_scrolls f)));
    ("scroll_pause", json_number (parseFloat (scroll_pause f)));
    ("scrape_timeout", json_number (parseInt (scrape_timeout f)));
    ("headless_mode", VBool (String.eqb (headless_mode f) "true"))
  ].

(** The start click, up to the request it sends. *)
Definition start_click (f : form) : M request :=
  let body := config f in
  set_disabled startButton true;;
  set_disabled stopButton false;;
  set_disabled downloadButton true;;
  modify (with_resultsBody []);;
  mret (POST "/start-scraping" (Some body)).

(** The start click, from the reply on. *)
Definition start_reply (r : reply) : M unit :=
  try_catch
    ('(ok, data) ← receive r;
     message ← prop data "message";
     assign_textContent statusMessage message;;
     if (ok : bool) then startPollingStatus
     else (set_disabled startButton false;;
           set_disabled stopButton true))
    (fun _ =>
       console_error "Error starting scraping:";;
       set_textContent statusMessage "Failed to start scraping. Check console for errors.";;
       set_disabled startButton false;;
       set_disabled stopButton true).

Definition stop_click : M request := mret (POST "/stop-scraping" None).

Definition stop_reply (r : reply) : M unit :=
  try_catch
    ('(ok, data) ← receive r;
     message ← prop data "message";
     assign_textContent statusMessage message;;
     set_disabled stopButton true)
    (fun _ =>
       console_error "Error stopping scraping:";;
       set_textContent statusMessage "Failed to send stop signal.").

Definition download_click : M unit := modify (with_location "/download-csv").

(** The last statement of the script: the Result Fetcher runs every ten
    seconds from the moment the page loads. *)
Definition on_load : M unit :=
  _ ← setInterval FetchResults 10000; mret tt.

(** *** The event loop *)

(** What waits for the reply to a request. *)
Inductive continuation := OnStatus | OnResults | OnStart | OnStop.

Definition resume (k : continuation) (r : reply) : M unit :=
  match k with
  | OnStatus => poll_tick r
  | OnResults => fetchAndDisplayResults r
  | OnStart => start_reply r
  | OnStop => stop_reply r
  end.

Record world := {
  shown : page;
  inflight : list (request * continuation)
}.

Inductive event :=
  | ClickStart (f : form)
  | ClickStop
  | ClickDownload
  | TimerFires (id : positive)
  | ReplyArrives (i : nat) (r : reply).

(** Runs a handler up to its request, which joins those in flight. *)
Definition launch (c : M request) (k : continuation) (w : world) : world :=
  match c (shown w) with
  | (Normal req, p) => {| shown := p; inflight := inflight w ++ [(req, k)] |}
  | (Throw _, p) => {| shown := p; inflight := inflight w |}
  end.

(** One turn of the event loop; [None] when the event cannot occur: a
    disabled button is not clicked, a cancelled timer does not fire, and
    a reply answers a request in flight. *)
Definition step (w : world) (e : event) : option world :=
  match e with
  | ClickStart f =>
      if disabled (elem startButton (shown w)) then None
      else Some (launch (start_click f) OnStart w)
  | ClickStop =>
      if disabled (elem stopButton (shown w)) then None
      else Some (launch stop_click OnStop w)
  | ClickDownload =>
      if disabled (elem downloadButton (shown w)) then None
      else Some {| shown := exec download_click (shown w); inflight := inflight w |}
  | TimerFires id =>
      match timers (shown w) !! id with
      | Some t =>
          match run t with
          | PollStatus => Some (launch poll_request OnStatus w)
          | FetchResults => Some (launch results_request OnResults w)
          end
      | None => None
      end
  | ReplyArrives i r =>
      match inflight w !! i with
      | Some (_, k) =>
          Some {| shown := exec (resume k r) (shown w);
                  inflight := delete i (inflight w) |}
      | None => None
      end
  end.

Fixpoint steps (w : world) (es : list event) : option world :=
  match es with
  | [] => Some w
  | e :: es' =>
      match step w e with
      | Some w' => steps w' es'
      | None => None
      end
  end.

(** The page as the document gives it, before the script has run: no
    timer, [statusInterval] not assigned. *)
Definition document (el : node -> element) (rows : list row) : page :=
  {| el_start := el startButton; el_stop := el stopButton;
     el_download := el downloadButton; el_status := el statusMessage;
     el_link_bar := el linkProgressBar; el_detail_bar := el detailProgressBar;
     el_links := el linksFound; el_scraped := el scrapedCount;
     resultsBody := rows;
     statusInterval := Unset;
     timers := ∅;
     next_timer := 1%positive;
     console := [];
     location := "/" |}.

(** The world once the script has run. *)
Definition loaded (el : node -> element) (rows : list row) : world :=
  {| shown := exec on_load (document el rows); inflight := [] |}.

(** *** The Poller as an object with two methods *)

Inductive poller_call := Start | Stop.

Definition call (c : poller_call) : M unit :=
  match c with
  | Start => startPollingStatus
  | Stop => stopPollingStatus
  end.

Definition calls (cs : list poller_call) (p : page) : page :=
  fold_left (fun q c => exec (call c) q) cs p.

(** The ids of the polling repetitions that are armed. *)
Definition polling (p : page) : gset positive :=
  dom (filter (fun kv => run (snd kv) = PollStatus) (timers p)).

(** *** Notions used in the statements *)

(** The polling repetition [statusInterval] holds. *)
Definition held (h : handle) : gset positive :=
  match h with
  | Timer id => {[ id ]}
  | Unset | Null => ∅
  end.

(** The repetitions armed for polling are exactly the one
    [statusInterval] holds, and no timer has an id yet to be given. *)
Definition consistent (p : page) : Prop :=
  polling p = held (statusInterval p) /\
  forall id, id ∈ dom (timers p) -> (id < next_timer p)%positive.

(** Two pages with the same timers and the same [statusInterval]. *)
Record same_timers (p q : page) : Prop := {
  same_statusInterval : statusInterval q = statusInterval p;
  same_timer_table : timers q = timers p;
  same_next_timer : next_timer q = next_timer p
}.

(** The three controls. *)
Definition controls : list node := [startButton; stopButton; downloadButton].

(** The elements that show the status of the job. *)
Definition indicators : list node :=
  [statusMessage; linkProgressBar; detailProgressBar; linksFound; scrapedCount].

(** A value whose properties can be read: anything but [null] and
    [undefined]. *)
Definition readable (v : value) : bool :=
  match v with
  | VUndefined | VNull => false
  | _ => true
  end.

(** [data.name] where it does not throw. *)
Definition field (data : value) (name : string) : value :=
  match get data name with
  | Normal v => v
  | Throw _ => VUndefined
  end.

(** A value that can be converted to a string and to a number: it is
    not an object with a member called [toString], nor an array that
    holds, at any depth, such an object. *)
Fixpoint convertible (v : value) : bool :=
  match v with
  | VArr items =>
      (fix all (l : list value) : bool :=
         match l with
         | [] => true
         | x :: l' => convertible x && all l'
         end) items
  | VObj props => negb (has_prop "toString" props)
  | _ => true
  end.

(** A value that is not an array or an object. *)
Definition primitive (v : value) : bool :=
  match v with
  | VArr _ | VObj _ => false
  | _ => true
  end.

(** The properties of a snapshot that [updateUI] shows. *)
Definition shown_fields : list string :=
  ["status_message"; "link_collection_progress"; "detail_scraping_progress";
   "link_count"; "scraped_count"; "total_to_scrape"].

(** A snapshot [updateUI] can show. *)
Definition renders (data : value) : bool :=
  readable data
  && forallb (fun name => convertible (field data name)) shown_fields.

(** The condition on line 26, [data.results_df && data.results_df.length
    > 0], for a snapshot that can be read. *)
Definition results_guard (data : value) : completion bool :=
  if ToBoolean (field data "results_df")
  then gt0 (field (field data "results_df") "length")
  else Normal false.

(** The statements of the polling tick that end a run. *)
Definition teardown (data : value) : M unit :=
  stopPollingStatus;;
  set_disabled startButton false;;
  set_disabled stopButton true;;
  available ← results_available data;
  when available (set_disabled downloadButton false).

(** What the polling tick does when it catches an error. *)
Definition poll_catch : M unit :=
  console_error "Error polling status:";;
  set_textContent statusMessage "Error connecting to server. Polling stopped.";;
  stopPollingStatus.

Definition poll_failure_text : string :=
  "Error connecting to server. Polling stopped.".

(** The decimal notation of [n / 10], with one digit after the point. *)
Definition one_decimal (n : Z) : string :=
  digits (n / 10) +:+ "." +:+ digits (n mod 10).

(** The sign [toFixed] writes. *)
Definition sign_of (x : number) : string :=
  if is_negative x then "-" else "".

(** The two bars and the property each one shows. *)
Definition bars : list (node * string) :=
  [(linkProgressBar, "link_collection_progress");
   (detailProgressBar, "detail_scraping_progress")].

(** A string without any decimal digit. *)
Fixpoint no_digit (s : string) : bool :=
  match s with
  | EmptyString => true
  | String c s' =>
      match decimal_digit c with
      | Some _ => false
      | None => no_digit s'
      end
  end.

(** A reply that does not accept the start: the request failed in
    transport, or the server answered with an error status. *)
Definition start_failed (r : reply) : Prop :=
  r = Rejected \/ exists body, r = Response false body.

(** A tick of the Result Fetcher whose request fails, or whose reply is
    not JSON. *)
Definition fetch_failed (r : reply) : Prop :=
  r = Rejected \/ exists ok, r = Response ok None.

Definition start_failure_text : string :=
  "Failed to start scraping. Check console for errors.".

Definition stop_failure_text : string := "Failed to send stop signal.".

(** [data.message] for the body of a reply, when the reply has a body
    that is JSON and is not [null]. *)
Definition reply_message (r : reply) : option value :=
  match r with
  | Response _ (Some data) =>
      if readable data then Some (field data "message") else None
  | _ => None
  end.

(** A reply whose message can be shown. *)
Definition shows_message (r : reply) : bool :=
  match reply_message r with
  | Some v => convertible v
  | None => false
  end.

(** What a handler may do to the Poller: leave the timers alone, stop
    it, start it, or one of these after the other. *)
Inductive poller_move : page -> page -> Prop :=
  | move_none p q : same_timers p q -> poller_move p q
  | move_stop p : poller_move p (exec stopPollingStatus p)
  | move_start p : poller_move p (exec startPollingStatus p)
  | move_then p q r : poller_move p q -> poller_move q r -> poller_move p r.

(** While the start control is enabled, the stop control is disabled. *)
Definition unlocked_stop_disabled (p : page) : Prop :=
  disabled (elem startButton p) = false -> disabled (elem stopButton p) = true.

(** A piece of script that relates the page it finds to the page it
    leaves by [R], whether it completes or throws. *)
Definition respects {A} (R : page -> page -> Prop) (c : M A) : Prop :=
  forall p, R p (snd (c p)).

(** Relations between the page before and the page after. *)
Definition keeps_controls (p q : page) : Prop :=
  forall n, In n controls -> elem n q = elem n p.

Definition keeps_start_stop (p q : page) : Prop :=
  elem startButton q = elem startButton p /\ elem stopButton q = elem stopButton p.

Definition keeps_table (p q : page) : Prop := resultsBody q = resultsBody p.

Definition keeps_others (p q : page) : Prop :=
  forall n, ~ In n indicators -> elem n q = elem n p.

Definition keeps_flags (p q : page) : Prop :=
  forall n, disabled (elem n q) = disabled (elem n p).


(** *** A run of the page, for concrete checks *)

Definition plain (off : bool) : element :=
  {| disabled := off; textContent := ""; style_width := "" |}.

(** A document whose stop and download buttons start disabled. *)
Definition sample_document (n : node) : element :=
  match n with
  | stopButton | downloadButton => plain true
  | _ => plain false
  end.

Definition sample_form : form :=
  {| general_search_term := "plumbers";
     categories := "A, B";
     zipcodes := "10001" +:+ String newline "10002";
     max_workers := "4";
     max_scrolls := "10";
     scroll_pause := "1.5";
     scrape_timeout := "60";
     headless_mode := "true" |}.

(** The same form with text in the four numeric fields. *)
Definition text_form : form :=
  {| general_search_term := "plumbers";
     categories := "A, B";
     zipcodes := "10001" +:+ String newline "10002";
     max_workers := "many";
     max_scrolls := "some";
     scroll_pause := "a while";
     scrape_timeout := "never";
     headless_mode := "true" |}.

Definition accepted : reply :=
  Response true (Some (VObj [("message", VStr "Scraping started")])).

Definition refused : reply :=
  Response false (Some (VObj [("message", VStr "Scraping already in progress")])).

Definition half : number := of_ratio false 1 2.

Definition running_snapshot : value :=
  VObj [("status_message", VStr "Collecting links");
        ("link_collection_progress", VNum half);
        ("detail_scraping_progress", VNum (zero false));
        ("link_count", VNum (of_Z 12));
        ("scraped_count", VNum (zero false));
        ("total_to_scrape", VNum (of_Z 12));
        ("scraping_active", VBool true)].

(** [{active: false, scraped_count: 3}], under the name the script
    reads. *)
Definition finished_snapshot : value :=
  VObj [("scraping_active", VBool false); ("scraped_count", VNum (of_Z 3))].

Definition finished_with_results : value :=
  VObj [("scraping_active", VBool false);
        ("scraped_count", VNum (of_Z 3));
        ("results_df", VArr [VObj [("Name", VStr "Ann")]])].

(** The page once a start has been accepted. *)
Definition start_accepted : list event :=
  [ClickStart sample_form; ReplyArrives 0 accepted].

Definition page_after (es : list event) : option page :=
  match steps (loaded sample_document []) es with
  | Some w => Some (shown w)
  | None => None
  end.

(** The page while a job runs: locked, the Poller armed with timer 2. *)
Definition running_page : page :=
  exec (start_reply accepted)
    (exec (start_click sample_form) (shown (loaded sample_document []))).

Definition one_row : row :=
  {| name_cell := "Ann"; address_cell := "1 Main St"; website_cell := "";
     email_cell := "ann@example.org"; category_cell := "A" |}.

(** The states of the three controls, [true] for disabled. *)
Definition control_states (p : page) : bool * bool * bool :=
  (disabled (elem startButton p), disabled (elem stopButton p),
   disabled (elem downloadButton p)).


(** An object that cannot be converted: its member [toString] hides the
    inherited method and is not a function. *)
Definition opaque_object : value := VObj [("toString", VNum (of_Z 1))].

(** A snapshot of a finished job whose status message cannot be shown. *)
Definition opaque_finished : value :=
  VObj [("scraping_active", VBool false); ("status_message", opaque_object)].

(** A snapshot whose link progress cannot be converted to a number. *)
Definition opaque_progress : value :=
  VObj [("status_message", VStr "Collecting links");
        ("link_collection_progress", opaque_object);
        ("scraping_active", VBool true)].

(** A reply to the stop request with a success status and a message that
    cannot be shown. *)
Definition opaque_reply : reply :=
  Response true (Some (VObj [("message", opaque_object)])).

End Script.

Arguments Script.percent : simpl never.
Arguments JsValue.ToString : simpl never.
Arguments JsValue.ToNumber : simpl never.
Arguments JsValue.text_of : simpl never.
Arguments JsValue.gt0 : simpl never.
Arguments Script.reply_message : simpl never.
Arguments Script.shows_message : simpl never.
Arguments JsValue.or_empty : simpl never.
Arguments JsNumber.parseInt : simpl never.
Arguments JsNumber.parseFloat : simpl never.
Arguments JsNumber.toFixed1 : simpl never.
Arguments JsNumber.to_string : simpl never.

Import JsNumber JsValue JsString Script.

(** * Properties *)

(** ** Runs of the page *)

(** An accepted start locks the page and arms the Poller. *)
Example run_accepted_start :
  option_map (fun p => (control_states p, resultsBody p, statusInterval p,
                        textContent (elem statusMessage p)))
    (page_after start_accepted)
  = Some ((true, false, true), [], Timer 2, "Scraping started").
Proof. vm_compute. reflexivity. Qed.

(** A tick of a running job shows the progress and changes no control. *)
Example run_active_tick :
  option_map (fun p => (control_states p,
                        textContent (elem linkProgressBar p),
                        style_width (elem linkProgressBar p),
                        textContent (elem scrapedCount p)))
    (page_after (start_accepted ++
       [TimerFires 2; ReplyArrives 0 (Response true (Some running_snapshot))]))
  = Some ((true, false, true), "50.0%", "50.0%", "0 / 12").
Proof. vm_compute. reflexivity. Qed.

(** A tick that reports the job over, with results, unlocks the page. *)
Example run_finished_with_results :
  option_map (fun p => (control_states p, statusInterval p))
    (page_after (start_accepted ++
       [TimerFires 2;
        ReplyArrives 0 (Response true (Some finished_with_results))]))
  = Some ((false, true, false), Null).
Proof. vm_compute. reflexivity. Qed.

(** The Result Fetcher fills the table and enables the download control
    during a job; the start and stop controls stay as they are. *)
Example run_results_during_job :
  option_map (fun p => (control_states p, resultsBody p))
    (page_after (start_accepted ++
       [TimerFires 1;
        ReplyArrives 0
          (Response true
             (Some (VArr [VObj [("Name", VStr "Ann");
                                ("Address", VStr "1 Main St");
                                ("Final Email", VStr "ann@example.org");
                                ("Category", VStr "A")]])))]))
  = Some ((true, false, false), [one_row]).
Proof. vm_compute. reflexivity. Qed.

(** A disabled start control is not clicked. *)
Example run_no_second_start :
  page_after (start_accepted ++ [ClickStart sample_form]) = None.
Proof. vm_compute. reflexivity. Qed.

(** Conversions between text and numbers. *)
Example parseInt_samples :
  List.map (fun s => to_string (parseInt s)) ["42px"; "  -0x1F"; "many"; ""; "3.7"]
  = ["42"; "-31"; "NaN"; "NaN"; "3"].
Proof. vm_compute. reflexivity. Qed.

Example parseFloat_samples :
  List.map (fun s => to_string (parseFloat s)) ["1.5"; ".5e1"; "1e"; "a while"; "-.25x"]
  = ["1.5"; "5"; "1"; "NaN"; "-0.25"].
Proof. vm_compute. reflexivity. Qed.

Example to_string_samples :
  List.map to_string [of_ratio false 1 10; of_Z (10 ^ 21); of_ratio false 1 (10 ^ 7);
                      of_Z 123456789012345680000; mul (of_ratio false 1005 1000) (of_Z 100)]
  = ["0.1"; "1e+21"; "1e-7"; "123456789012345680000"; "100.49999999999999"].
Proof. vm_compute. reflexivity. Qed.

(** ** The Poller *)

Lemma polling_with_timers t n p :
  polling (with_timers t n p) =
  dom (filter (fun kv => run (snd kv) = PollStatus) t).
Proof. reflexivity. Qed.

Lemma polling_delete id p :
  polling (with_timers (delete id (timers p)) (next_timer p) p) = polling p ∖ {[ id ]}.
Proof.
  rewrite polling_with_timers. unfold polling.
  rewrite map_filter_delete. apply dom_delete_L.
Qed.

Lemma polling_arm id ms p :
  polling (with_timers (<[id := {| run := PollStatus; delay := ms |}]> (timers p)) (Pos.succ id) p)
  = {[ id ]} ∪ polling p.
Proof.
  rewrite polling_with_timers. unfold polling.
  rewrite map_filter_insert_True by done. apply dom_insert_L.
Qed.

Lemma stop_run p :
  stopPollingStatus p =
  (Normal tt,
   with_statusInterval Null
     (match statusInterval p with
      | Timer id => with_timers (delete id (timers p)) (next_timer p) p
      | _ => p
      end)).
Proof. unfold stopPollingStatus. destruct p as [? ? ? ? ? ? ? ? ? h ? ? ? ?]. by destruct h. Qed.

Lemma start_run p :
  startPollingStatus p =
  (Normal tt,
   let q := match statusInterval p with
            | Timer id => with_timers (delete id (timers p)) (next_timer p) p
            | _ => p
            end in
   with_statusInterval (Timer (next_timer p))
     (with_timers (<[next_timer p := {| run := PollStatus; delay := 2000 |}]> (timers q))
        (Pos.succ (next_timer p)) q)).
Proof. unfold startPollingStatus. destruct p as [? ? ? ? ? ? ? ? ? h ? ? ? ?]. by destruct h. Qed.

Lemma polling_with_statusInterval h p :
  polling (with_statusInterval h p) = polling p.
Proof. reflexivity. Qed.

Lemma stop_consistent p : consistent p -> consistent (exec stopPollingStatus p).
Proof.
  intros [Hp Hn]. unfold exec. rewrite stop_run. cbn [snd].
  split; [rewrite polling_with_statusInterval | ].
  - destruct (statusInterval p) as [| |id]; cbn [statusInterval with_statusInterval held] in *;
      [done | done |].
    rewrite polling_delete, Hp. apply difference_diag_L.
  - intros i. destruct (statusInterval p) as [| |id]; cbn; [apply Hn | apply Hn |].
    rewrite dom_delete_L. intros Hi. apply Hn.
    by apply elem_of_difference in Hi as [Hi _].
Qed.

Lemma start_consistent p : consistent p -> consistent (exec startPollingStatus p).
Proof.
  intros [Hp Hn]. unfold exec. rewrite start_run. cbn [snd].
  assert (Hfresh : next_timer p ∉ dom (timers p)).
  { intros Hin. apply Hn in Hin. lia. }
  cbv zeta. split.
  - rewrite polling_with_statusInterval. cbn [statusInterval with_statusInterval held].
    destruct (statusInterval p) as [| |id]; cbn [held] in Hp.
    + rewrite polling_arm, Hp. apply (right_id_L ∅ (∪)).
    + rewrite polling_arm, Hp. apply (right_id_L ∅ (∪)).
    + set (q := with_timers (delete id (timers p)) (next_timer p) p).
      change (next_timer p) with (next_timer q).
      rewrite polling_arm. subst q.
      rewrite polling_delete, Hp, difference_diag_L. apply (right_id_L ∅ (∪)).
  - intros i. cbn [timers next_timer with_statusInterval with_timers].
    rewrite dom_insert_L. intros Hi.
    apply elem_of_union in Hi as [Hi | Hi]; [apply elem_of_singleton in Hi; lia |].
    assert (i ∈ dom (timers p)) as Hd.
    { destruct (statusInterval p); cbn in Hi; [done | done |].
      rewrite dom_delete_L in Hi. by apply elem_of_difference in Hi as [Hi _]. }
    apply Hn in Hd. lia.
Qed.

Lemma call_consistent c p : consistent p -> consistent (exec (call c) p).
Proof. destruct c; [apply start_consistent | apply stop_consistent]. Qed.

Lemma calls_consistent cs p : consistent p -> consistent (calls cs p).
Proof.
  revert p. induction cs as [|c cs IH]; intros p Hp; [done |].
  apply IH, call_consistent, Hp.
Qed.

Lemma loaded_consistent el rows : consistent (shown (loaded el rows)).
Proof.
  split.
  - reflexivity.
  - intros i Hi.
    change (i ∈ dom ({[ 1%positive := {| run := FetchResults; delay := 10000 |} ]} : gmap positive timer)) in Hi.
    rewrite dom_singleton_L in Hi. apply elem_of_singleton in Hi.
    subst i. reflexivity.
Qed.

Lemma consistent_at_most_one p : consistent p -> (size (polling p) <= 1)%nat.
Proof.
  intros [Hp _]. rewrite Hp. destruct (statusInterval p); cbn [held].
  - rewrite size_empty. lia.
  - rewrite size_empty. lia.
  - rewrite size_singleton. lia.
Qed.

Lemma start_exactly_one p :
  consistent p -> size (polling (exec startPollingStatus p)) = 1%nat.
Proof.
  intros Hp. destruct (start_consistent p Hp) as [Hq _].
  rewrite Hq. unfold exec. rewrite start_run. cbn [snd statusInterval with_statusInterval held].
  apply size_singleton.
Qed.

Lemma stop_idempotent p :
  exec stopPollingStatus (exec stopPollingStatus p) = exec stopPollingStatus p.
Proof. unfold exec. rewrite !stop_run. reflexivity. Qed.



(** ** Values and their conversions *)

(** Induction on a value, through the elements of an array. *)
Lemma value_items_ind (P : value -> Prop) :
  P VUndefined -> P VNull -> (forall b, P (VBool b)) -> (forall n, P (VNum n)) ->
  (forall s, P (VStr s)) ->
  (forall items, Forall P items -> P (VArr items)) ->
  (forall props, P (VObj props)) ->
  forall v, P v.
Proof.
  intros H1 H2 H3 H4 H5 H6 H7. fix IH 1.
  intros [| | b | n | s | items | props];
    [exact H1 | exact H2 | apply H3 | apply H4 | apply H5 | | apply H7].
  apply H6. induction items as [| x l IHl]; constructor; [apply IH | exact IHl].
Qed.

Lemma ToString_cons x l :
  ToString (VArr (x :: l)) =
  match text_of x with
  | Throw e => Throw e
  | Normal sx =>
      match l with
      | [] => Normal sx
      | _ :: _ =>
          match ToString (VArr l) with
          | Throw e => Throw e
          | Normal rest => Normal (sx +:+ "," +:+ rest)
          end
      end
  end.
Proof. reflexivity. Qed.

Lemma convertible_cons x l :
  convertible (VArr (x :: l)) = convertible x && convertible (VArr l).
Proof. reflexivity. Qed.

(** The conversion to a string completes exactly on the convertible
    values, and throws a [TypeError] on the others. *)
Lemma ToString_cases v :
  (convertible v = true /\ exists s, ToString v = Normal s) \/
  (convertible v = false /\ ToString v = Throw TypeError).
Proof.
  induction v as [| | b | n | s | items IH | props] using value_items_ind;
    try (left; split; [reflexivity | eexists; reflexivity]).
  - induction IH as [| x l Hx _ IHl].
    + left. split; [reflexivity | eexists; reflexivity].
    + rewrite ToString_cons, convertible_cons.
      assert (Hx' : (convertible x = true /\ exists s, text_of x = Normal s) \/
                    (convertible x = false /\ text_of x = Throw TypeError)).
      { destruct x; try exact Hx; left; (split; [reflexivity | eexists; reflexivity]). }
      destruct Hx' as [[-> [sx ->]] | [-> ->]]; [| right; done].
      destruct IHl as [[Hc [sl Hs]] | [Hc Hs]]; rewrite Hc, Hs.
      * left. split; [reflexivity |]. destruct l; eexists; reflexivity.
      * right. split; [reflexivity |]. destruct l; [discriminate Hc | reflexivity].
  - unfold ToString, convertible. destruct (has_prop "toString" props).
    + right. done.
    + left. split; [reflexivity | eexists; reflexivity].
Qed.

Lemma text_of_cases v :
  (convertible v = true /\ exists s, text_of v = Normal s) \/
  (convertible v = false /\ text_of v = Throw TypeError).
Proof.
  destruct v; try apply ToString_cases;
    left; (split; [reflexivity | eexists; reflexivity]).
Qed.

Lemma ToNumber_cases v :
  (convertible v = true /\ exists n, ToNumber v = Normal n) \/
  (convertible v = false /\ ToNumber v = Throw TypeError).
Proof.
  destruct v as [| | b | n | s | items | props];
    try (left; split; [reflexivity | eexists; reflexivity]).
  - unfold ToNumber.
    destruct (ToString_cases (VArr items)) as [[-> [s ->]] | [-> ->]]; [left | right];
      (split; [reflexivity | try eexists; reflexivity]).
  - unfold ToNumber.
    destruct (ToString_cases (VObj props)) as [[-> [s ->]] | [-> ->]]; [left | right];
      (split; [reflexivity | try eexists; reflexivity]).
Qed.

Lemma percent_cases v :
  (convertible v = true /\ exists n, ToNumber v = Normal n /\
     percent v = Normal (toFixed1 (mul n (of_Z 100)))) \/
  (convertible v = false /\ percent v = Throw TypeError).
Proof.
  unfold percent.
  destruct (ToNumber_cases v) as [[-> [n ->]] | [-> ->]]; [left | right];
    (split; [reflexivity | eauto]).
Qed.

(** A value that is not an array or an object is convertible. *)
Lemma primitive_convertible v :
  (forall items, v <> VArr items) -> (forall props, v <> VObj props) ->
  convertible v = true.
Proof. intros Ha Ho. destruct v; try reflexivity; [by destruct (Ha items) | by destruct (Ho props)]. Qed.

(** ** Reading a snapshot *)

Lemma get_readable data name :
  readable data = true -> get data name = Normal (field data name).
Proof. unfold field. by destruct data. Qed.

Lemma get_unreadable data name :
  readable data = false -> get data name = Throw TypeError.
Proof. by destruct data. Qed.

Lemma field_unreadable data name :
  readable data = false -> field data name = VUndefined.
Proof. by destruct data. Qed.

Lemma get_Normal_readable data name v :
  get data name = Normal v -> readable data = true /\ field data name = v.
Proof. unfold field. destruct data; cbn; intros H; by inversion H. Qed.

Lemma truthy_readable v : ToBoolean v = true -> readable v = true.
Proof. by destruct v. Qed.
(** ** What a piece of script leaves alone *)

Section Respects.
Context (R : page -> page -> Prop) `{!PreOrder R}.

Lemma respects_ret {A} (a : A) : respects R (mret a : M A).
Proof. intros p. reflexivity. Qed.

Lemma respects_lift {A} (c : completion A) : respects R (lift c).
Proof. intros p. reflexivity. Qed.

Lemma respects_throw {A} (e : error) : respects R (throw e : M A).
Proof. intros p. reflexivity. Qed.

Lemma respects_gets {A} (f : page -> A) : respects R (gets f).
Proof. intros p. reflexivity. Qed.

Lemma respects_receive r : respects R (receive r).
Proof. intros p. destruct r as [| ok [data |]]; reflexivity. Qed.

Lemma respects_modify (f : page -> page) :
  (forall p, R p (f p)) -> respects R (modify f).
Proof. intros Hf p. apply Hf. Qed.

Lemma respects_bind {A B} (c : M A) (f : A -> M B) :
  respects R c -> (forall a, respects R (f a)) -> respects R (c ≫= f).
Proof.
  intros Hc Hf p. specialize (Hc p). unfold mbind, M_bind.
  destruct (c p) as [[a | e] p']; cbn in *; [| exact Hc].
  etransitivity; [exact Hc | apply Hf].
Qed.

Lemma respects_try_catch {A} (body : M A) (handler : error -> M A) :
  respects R body -> (forall e, respects R (handler e)) ->
  respects R (try_catch body handler).
Proof.
  intros Hb Hh p. specialize (Hb p). unfold try_catch.
  destruct (body p) as [[a | e] p']; cbn in *; [exact Hb |].
  etransitivity; [exact Hb | apply Hh].
Qed.

Lemma respects_when (b : bool) (c : M unit) :
  respects R c -> respects R (when b c).
Proof. intros Hc. destruct b; [exact Hc | by intros p]. Qed.

End Respects.

(** Breaks a piece of script into its statements. *)
Ltac respects_rule lem :=
  apply lem;
  try lazymatch goal with |- PreOrder _ => exact _ end.

Ltac respects_step :=
  cbv beta;
  lazymatch goal with
  | |- respects _ (mbind _ _) => respects_rule @respects_bind; [| intros ?]
  | |- respects _ (try_catch _ _) => respects_rule @respects_try_catch; [| intros ?]
  | |- respects _ (when _ _) => respects_rule @respects_when
  | |- respects _ (mret _) => respects_rule @respects_ret
  | |- respects _ (lift _) => respects_rule @respects_lift
  | |- respects _ (throw _) => respects_rule @respects_throw
  | |- respects _ (gets _) => respects_rule @respects_gets
  | |- respects _ (prop _ _) => respects_rule @respects_lift
  | |- respects _ (receive _) => respects_rule @respects_receive
  | |- respects _ (assign_textContent _ _) => unfold assign_textContent
  | |- respects _ (let '(_, _) := ?a in _) => destruct a
  | |- respects _ (if ?b then _ else _) => destruct b
  end.

Ltac respects_modify_with tac :=
  respects_rule @respects_modify; intros ?p; tac.

Ltac respects_steps := repeat respects_step.

Lemma same_timers_preorder : PreOrder same_timers.
Proof.
  split.
  - intros p. by split.
  - intros p q r [H1 H2 H3] [H4 H5 H6]. split; congruence.
Qed.
#[local] Existing Instance same_timers_preorder.

Lemma keeps_controls_preorder : PreOrder keeps_controls.
Proof.
  split.
  - by intros p n _.
  - intros p q r H1 H2 n Hn. by rewrite H2, H1.
Qed.
#[local] Existing Instance keeps_controls_preorder.

Lemma keeps_start_stop_preorder : PreOrder keeps_start_stop.
Proof.
  split.
  - by intros p.
  - intros p q r [H1 H2] [H3 H4]. split; congruence.
Qed.
#[local] Existing Instance keeps_start_stop_preorder.

Lemma keeps_table_preorder : PreOrder keeps_table.
Proof.
  split.
  - by intros p.
  - intros p q r H1 H2. unfold keeps_table in *. congruence.
Qed.
#[local] Existing Instance keeps_table_preorder.

Lemma keeps_others_preorder : PreOrder keeps_others.
Proof.
  split.
  - by intros p n _.
  - intros p q r H1 H2 n Hn. by rewrite H2, H1.
Qed.
#[local] Existing Instance keeps_others_preorder.

Lemma keeps_flags_preorder : PreOrder keeps_flags.
Proof.
  split.
  - by intros p n.
  - intros p q r H1 H2 n. by rewrite H2, H1.
Qed.
#[local] Existing Instance keeps_flags_preorder.

Lemma poller_move_preorder : PreOrder poller_move.
Proof.
  split.
  - intros p. apply move_none. reflexivity.
  - intros p q r. apply move_then.
Qed.
#[local] Existing Instance poller_move_preorder.

Lemma same_timers_refl p : same_timers p p.
Proof. reflexivity. Qed.

Lemma same_timers_trans p q r :
  same_timers p q -> same_timers q r -> same_timers p r.
Proof. intros H1 H2. by etransitivity. Qed.

Lemma consistent_same_timers p q :
  same_timers p q -> consistent p -> consistent q.
Proof.
  intros [Hs Ht Hn] [Hp Hd]. unfold consistent, polling.
  rewrite Hs, Ht, Hn. split; [exact Hp | exact Hd].
Qed.

(** The Poller leaves every element and the table alone. *)
Lemma stop_elements p :
  (forall n, elem n (exec stopPollingStatus p) = elem n p) /\
  resultsBody (exec stopPollingStatus p) = resultsBody p /\
  console (exec stopPollingStatus p) = console p.
Proof.
  unfold exec. rewrite stop_run.
  destruct (statusInterval p); (split; [intros n; by destruct n | done]).
Qed.

(** *** [updateUI] *)

Lemma updateUI_same_timers data : respects same_timers (updateUI data).
Proof.
  unfold updateUI. respects_steps; respects_modify_with ltac:(by split).
Qed.

Lemma updateUI_keeps_controls data : respects keeps_controls (updateUI data).
Proof.
  unfold updateUI. respects_steps; respects_modify_with
    ltac:(intros n Hn; cbn in Hn; destruct Hn as [<- | [<- | [<- | []]]]; reflexivity).
Qed.

Lemma updateUI_keeps_flags data : respects keeps_flags (updateUI data).
Proof.
  unfold updateUI. respects_steps; respects_modify_with ltac:(intros n; by destruct n).
Qed.

Lemma updateUI_keeps_table data : respects keeps_table (updateUI data).
Proof.
  unfold updateUI. respects_steps; respects_modify_with ltac:(reflexivity).
Qed.

Lemma updateUI_keeps_others data : respects keeps_others (updateUI data).
Proof.
  unfold updateUI. respects_steps; respects_modify_with
    ltac:(intros n Hn; destruct n; try reflexivity; destruct Hn; cbn; tauto).
Qed.

Lemma updateUI_console data p : console (exec (updateUI data) p) = console p.
Proof.
  change ((fun p q => console q = console p) p (snd (updateUI data p))).
  revert p. change (respects (fun p q => console q = console p) (updateUI data)).
  assert (PreOrder (fun p q : page => console q = console p)).
  { split; [by intros p | intros p q r H1 H2; congruence]. }
  unfold updateUI. respects_steps; respects_modify_with ltac:(reflexivity).
Qed.
(** [updateUI] completes on the snapshots that [renders] describes, and
    throws a [TypeError] on the others. *)
Lemma updateUI_outcome data p :
  let q := exec (updateUI data) p in
  (renders data = true /\ fst (updateUI data p) = Normal tt /\
   exists sm x y lc sc tot,
     text_of (field data "status_message") = Normal sm /\
     ToNumber (field data "link_collection_progress") = Normal x /\
     ToNumber (field data "detail_scraping_progress") = Normal y /\
     text_of (field data "link_count") = Normal lc /\
     ToString (field data "scraped_count") = Normal sc /\
     ToString (field data "total_to_scrape") = Normal tot /\
     textContent (elem statusMessage q) = sm /\
     textContent (elem linkProgressBar q) = toFixed1 (mul x (of_Z 100)) +:+ "%" /\
     style_width (elem linkProgressBar q) = toFixed1 (mul x (of_Z 100)) +:+ "%" /\
     textContent (elem detailProgressBar q) = toFixed1 (mul y (of_Z 100)) +:+ "%" /\
     style_width (elem detailProgressBar q) = toFixed1 (mul y (of_Z 100)) +:+ "%" /\
     textContent (elem linksFound q) = lc /\
     textContent (elem scrapedCount q) = sc +:+ " / " +:+ tot) \/
  (renders data = false /\ fst (updateUI data p) = Throw TypeError).
Proof.
  cbv zeta. unfold renders, shown_fields, forallb, exec.
  destruct (readable data) eqn:Hr; cbn [andb].
  2: { right. split; [reflexivity |]. unfold updateUI, prop.
       cbv [mbind M_bind mret M_ret lift]. by rewrite get_unreadable. }
  unfold updateUI, assign_textContent, prop. cbv [mbind M_bind mret M_ret lift].
  rewrite !(get_readable data) by done.
  destruct (text_of_cases (field data "status_message"))
    as [[-> [sm Hsm]] | [-> ->]]; [| right; done].
  destruct (percent_cases (field data "link_collection_progress"))
    as [[-> (n1 & Hn1 & Hlp)] | [-> ->]]; [| right; rewrite Hsm; done].
  destruct (percent_cases (field data "detail_scraping_progress"))
    as [[-> (n2 & Hn2 & Hdp)] | [-> ->]]; [| right; rewrite Hsm, Hlp; done].
  destruct (text_of_cases (field data "link_count"))
    as [[-> [lc Hlc]] | [-> ->]]; [| right; rewrite Hsm, Hlp, Hdp; done].
  destruct (ToString_cases (field data "scraped_count"))
    as [[-> [sc Hsc]] | [-> ->]]; [| right; rewrite Hsm, Hlp, Hdp, Hlc; done].
  destruct (ToString_cases (field data "total_to_scrape"))
    as [[-> [tot Htot]] | [-> ->]]; [| right; rewrite Hsm, Hlp, Hdp, Hlc, Hsc; done].
  left. split; [reflexivity |].
  rewrite Hsm, Hlp, Hdp, Hlc, Hsc, Htot. cbn.
  split; [reflexivity |].
  exists sm, n1, n2, lc, sc, tot.
  repeat split; done.
Qed.

Lemma updateUI_completes data p :
  fst (updateUI data p) = if renders data then Normal tt else Throw TypeError.
Proof.
  destruct (updateUI_outcome data p) as [(-> & -> & _) | (-> & ->)]; reflexivity.
Qed.

Lemma updateUI_run data p :
  renders data = true -> updateUI data p = (Normal tt, exec (updateUI data) p).
Proof.
  intros Hr. pose proof (updateUI_completes data p) as H. rewrite Hr in H.
  unfold exec. destruct (updateUI data p) as [c q]. cbn in *. by rewrite H.
Qed.

Lemma updateUI_throws data p :
  renders data = false -> updateUI data p = (Throw TypeError, exec (updateUI data) p).
Proof.
  intros Hr. pose proof (updateUI_completes data p) as H. rewrite Hr in H.
  unfold exec. destruct (updateUI data p) as [c q]. cbn in *. by rewrite H.
Qed.

Lemma renders_readable data : renders data = true -> readable data = true.
Proof. unfold renders. by intros [H _]%andb_prop. Qed.

(** *** The guard of line 26 *)

Lemma results_available_run data p :
  readable data = true ->
  results_available data p = (results_guard data, p).
Proof.
  intros Hr. unfold results_available, prop, results_guard.
  cbv [mbind M_bind mret M_ret lift].
  rewrite (get_readable data) by done.
  destruct (ToBoolean (field data "results_df")) eqn:Hdf; [| done].
  rewrite (get_readable (field data "results_df")) by by apply truthy_readable.
  by destruct (gt0 _).
Qed.

(** What [updateUI] shows, for a snapshot it can show: each text is the
    conversion of its property. *)
Lemma updateUI_texts data p :
  renders data = true ->
  let q := exec (updateUI data) p in
  text_of (field data "status_message") = Normal (textContent (elem statusMessage q)) /\
  (exists x, ToNumber (field data "link_collection_progress") = Normal x /\
     textContent (elem linkProgressBar q) = toFixed1 (mul x (of_Z 100)) +:+ "%" /\
     style_width (elem linkProgressBar q) = toFixed1 (mul x (of_Z 100)) +:+ "%") /\
  (exists y, ToNumber (field data "detail_scraping_progress") = Normal y /\
     textContent (elem detailProgressBar q) = toFixed1 (mul y (of_Z 100)) +:+ "%" /\
     style_width (elem detailProgressBar q) = toFixed1 (mul y (of_Z 100)) +:+ "%") /\
  text_of (field data "link_count") = Normal (textContent (elem linksFound q)) /\
  (exists sc tot,
     ToString (field data "scraped_count") = Normal sc /\
     ToString (field data "total_to_scrape") = Normal tot /\
     textContent (elem scrapedCount q) = sc +:+ " / " +:+ tot).
Proof.
  intros Hr. cbv zeta.
  destruct (updateUI_outcome data p) as [(_ & _ & H) | (Hn & _)]; [| congruence].
  destruct H as (sm & x & y & lc & sc & tot & H1 & H2 & H3 & H4 & H5 & H6
                 & T1 & T2 & T3 & T4 & T5 & T6 & T7).
  cbv zeta in *. rewrite T1, T6.
  split; [exact H1 |]. split; [by exists x |]. split; [by exists y |].
  split; [exact H4 |]. by exists sc, tot.
Qed.
(** ** Numbers written with one decimal *)

Lemma append_cons (x : ascii) (a b : string) :
  String x a +:+ b = String x (a +:+ b).
Proof. reflexivity. Qed.

Lemma append_assoc (a b c : string) : (a +:+ b) +:+ c = a +:+ (b +:+ c).
Proof.
  induction a as [|x a IH]; [done |]. by rewrite !append_cons, IH.
Qed.

Lemma length_append (a b : string) :
  String.length (a +:+ b) = (String.length a + String.length b)%nat.
Proof.
  induction a as [|x a IH]; [done |]. rewrite append_cons. simpl. by rewrite IH.
Qed.

Lemma substring_all (a : string) : substring 0 (String.length a) a = a.
Proof. induction a as [|x a IH]; simpl; [done | by rewrite IH]. Qed.

Lemma substring_front (a b : string) :
  substring 0 (String.length a) (a +:+ b) = a.
Proof.
  induction a as [|x a IH]; [by destruct b |].
  rewrite append_cons. simpl. by rewrite IH.
Qed.

Lemma substring_back (a b : string) :
  substring (String.length a) (String.length b) (a +:+ b) = b.
Proof.
  induction a as [|x a IH]; [apply substring_all |].
  rewrite append_cons. simpl. exact IH.
Qed.

Lemma pretty_N_go_append (x : N) (s : string) :
  pretty_N_go x s = pretty_N_go x "" +:+ s.
Proof.
  revert s. induction (N.lt_wf_0 x) as [x _ IH]. intros s.
  destruct (decide (x = 0)%N) as [-> | Hx].
  - by rewrite !pretty_N_go_0.
  - assert (0 < x)%N as Hpos by lia.
    rewrite (pretty_N_go_step x s), (pretty_N_go_step x "") by done.
    assert (x `div` 10 < x)%N as Hlt by (apply N.div_lt; lia).
    rewrite (IH _ Hlt (String _ s)), (IH _ Hlt (String _ "")).
    by rewrite append_assoc.
Qed.

Lemma pretty_N_small (x : N) :
  (x < 10)%N -> pretty x = String (pretty_N_char x) "".
Proof.
  intros Hx.
  assert (x = 0 \/ x = 1 \/ x = 2 \/ x = 3 \/ x = 4 \/ x = 5 \/ x = 6 \/ x = 7
          \/ x = 8 \/ x = 9)%N as H by lia.
  repeat (destruct H as [-> | H]; [reflexivity |]). by subst.
Qed.

Lemma pretty_N_large (x : N) :
  (10 <= x)%N ->
  pretty x = pretty (x `div` 10)%N +:+ String (pretty_N_char (x `mod` 10)) "".
Proof.
  intros Hx. unfold pretty at 1 2, pretty_N.
  assert (1 <= x `div` 10)%N by (apply (N.div_le_lower_bound x 10 1); lia).
  rewrite !decide_False by lia.
  rewrite pretty_N_go_step by lia. apply pretty_N_go_append.
Qed.

Lemma digits_small (n : Z) :
  0 <= n < 10 -> digits n = String (pretty_N_char (Z.to_N n)) "".
Proof. intros Hn. unfold digits. apply pretty_N_small. lia. Qed.

Lemma digits_large (n : Z) :
  10 <= n -> digits n = digits (n / 10) +:+ digits (n mod 10).
Proof.
  intros Hn. unfold digits.
  rewrite pretty_N_large by lia.
  rewrite Z2N.inj_div, Z2N.inj_mod by lia.
  change (Z.to_N 10) with 10%N.
  rewrite (pretty_N_small (_ `mod` 10)%N) by (apply N.mod_lt; lia).
  reflexivity.
Qed.

(** Putting the point before the last digit writes the number of tenths
    with one decimal. *)
Lemma point_before_last_one_decimal (n : Z) :
  0 <= n -> point_before_last n = one_decimal n.
Proof.
  intros Hn. unfold point_before_last, one_decimal, first_chars, after_chars.
  destruct (Z_lt_le_dec n 10) as [Hs | Hl].
  - rewrite (Z.div_small n 10), (Z.mod_small n 10) by lia.
    rewrite (digits_small n) by lia. reflexivity.
  - rewrite (digits_large n) by lia.
    rewrite (digits_small (n mod 10)) by (apply Z.mod_pos_bound; lia).
    set (c := pretty_N_char _). set (a := digits (n / 10)).
    assert (String.length a <> 0)%nat as Ha.
    { subst a. unfold digits, pretty, pretty_N.
      assert (1 <= n / 10) by (apply (Z.div_le_lower_bound n 10 1); lia).
      rewrite decide_False by lia.
      rewrite pretty_N_go_step by lia. rewrite pretty_N_go_append, length_append.
      cbn. lia. }
    rewrite length_append. cbn [String.length].
    replace (String.length a + 1 <=? 1)%nat with false
      by (symmetry; apply Nat.leb_gt; lia).
    rewrite length_append. cbn [String.length].
    replace (Z.to_nat (Z.of_nat (String.length a + 1) - 1)) with (String.length a) by lia.
    replace (String.length a + 1 - String.length a)%nat with (String.length (String c "")) by (cbn; lia).
    by rewrite substring_front, substring_back.
Qed.

Lemma magnitude_pos (m : positive) (e : Z) : (0 < magnitude m e)%Q.
Proof. destruct e; unfold magnitude, Qlt; cbn; lia. Qed.

Lemma abs_value_nonneg (x : number) : (0 <= abs_value x)%Q.
Proof.
  destruct x; cbn; try apply Qle_refl.
  apply Qlt_le_weak, magnitude_pos.
Qed.

(** [tenths a] is the integer nearest to [10 a], the larger of two. *)
Lemma tenths_nearest (a : Q) :
  (inject_Z (tenths a) - (1 # 2) <= a * 10 /\
   a * 10 < inject_Z (tenths a) + (1 # 2))%Q.
Proof.
  unfold tenths. split.
  - pose proof (Qfloor_le (a * 10 + (1 # 2))) as H. lra.
  - pose proof (Qlt_floor (a * 10 + (1 # 2))) as H.
    rewrite inject_Z_plus in H. change (inject_Z 1) with 1%Q in H. lra.
Qed.

Lemma tenths_nonneg (a : Q) : (0 <= a)%Q -> 0 <= tenths a.
Proof.
  intros Ha. unfold tenths.
  change 0 with (Qfloor 0). apply Qfloor_resp_le. lra.
Qed.

(** [toFixed(1)] of a finite number below [10^21]: the sign, then the
    nearest number of tenths written with one decimal. *)
Lemma toFixed1_one_decimal (x : number) :
  is_finite x = true ->
  (abs_value x < pow10 21)%Q ->
  toFixed1 x = sign_of x +:+ one_decimal (tenths (abs_value x)).
Proof.
  intros Hf Hlt. unfold toFixed1. rewrite Hf. cbn [negb].
  destruct (Qle_bool (pow10 21) (abs_value x)) eqn:Hle.
  - apply Qle_bool_iff in Hle. lra.
  - rewrite point_before_last_one_decimal; [done |].
    apply tenths_nonneg, abs_value_nonneg.
Qed.

(** ** Fractions between 0 and 1 *)

Local Open Scope Q_scope.

Lemma two_pow_pos (e : Z) : 0 < (2 # 1) ^ e.
Proof. by apply Qpower_0_lt. Qed.

Lemma two_pow_add (a b : Z) : (2 # 1) ^ (a + b) == (2 # 1) ^ a * (2 # 1) ^ b.
Proof. by apply Qpower_plus. Qed.

Lemma two_pow_mono (a b : Z) : (a <= b)%Z -> (2 # 1) ^ a <= (2 # 1) ^ b.
Proof. intros H. by apply Qpower_le_compat_l. Qed.

Lemma two_pow_Z (n : Z) : (0 <= n)%Z -> inject_Z (2 ^ n) == (2 # 1) ^ n.
Proof. intros H. by rewrite Zpower_Qpower. Qed.

Lemma scaled_mono (m m' e : Z) : (m <= m')%Z -> scaled m e <= scaled m' e.
Proof.
  intros H. unfold scaled. apply Qmult_le_compat_r.
  - by rewrite <- Zle_Qle.
  - apply Qlt_le_weak, two_pow_pos.
Qed.

Lemma magnitude_scaled (m : positive) (e : Z) :
  magnitude m e == scaled (Zpos m) e.
Proof.
  unfold magnitude, scaled. destruct e as [|p|p].
  - rewrite Qpower_0_r. ring.
  - rewrite inject_Z_mult, two_pow_Z by done. reflexivity.
  - change (Z.neg p) with (- Z.pos p)%Z. rewrite Qpower_opp.
    rewrite <- two_pow_Z by done. rewrite Qmake_Qdiv.
    rewrite Pos2Z.inj_pow. reflexivity.
Qed.

Lemma shr_1_half (mrs : shr_record) :
  (0 <= shr_m mrs)%Z -> shr_m (shr_1 mrs) = (shr_m mrs / 2)%Z.
Proof.
  intros H. rewrite <- Z.div2_div.
  destruct mrs as [m r s]. simpl in *.
  destruct m as [|[p|p|]|p]; try reflexivity; lia.
Qed.

Lemma pow2_xO (p : positive) :
  (2 ^ Z.pos p~0 = 2 ^ Z.pos p * 2 ^ Z.pos p)%Z.
Proof.
  replace (Z.pos p~0) with (Z.pos p + Z.pos p)%Z by lia.
  apply Z.pow_add_r; lia.
Qed.

Lemma pow2_xI (p : positive) :
  (2 ^ Z.pos p~1 = 2 * (2 ^ Z.pos p * 2 ^ Z.pos p))%Z.
Proof.
  replace (Z.pos p~1) with (1 + (Z.pos p + Z.pos p))%Z by lia.
  rewrite !Z.pow_add_r by lia. lia.
Qed.

Lemma iter_shr_1 (p : positive) (mrs : shr_record) :
  (0 <= shr_m mrs)%Z ->
  shr_m (SpecFloat.iter_pos shr_1 p mrs) = (shr_m mrs / 2 ^ Zpos p)%Z.
Proof.
  revert mrs. induction p as [p IH | p IH |]; intros mrs H; simpl SpecFloat.iter_pos.
  - assert (0 <= shr_m (shr_1 mrs))%Z as H1.
    { rewrite shr_1_half by done. apply Z.div_pos; lia. }
    assert (0 <= shr_m (SpecFloat.iter_pos shr_1 p (shr_1 mrs)))%Z as H2.
    { rewrite IH by done. apply Z.div_pos; lia. }
    rewrite IH, IH, shr_1_half by done.
    rewrite !Z.div_div by lia. f_equal.
    rewrite pow2_xI. lia.
  - assert (0 <= shr_m (SpecFloat.iter_pos shr_1 p mrs))%Z as H2.
    { rewrite IH by done. apply Z.div_pos; lia. }
    rewrite IH, IH by done. rewrite Z.div_div by lia. f_equal.
    by rewrite pow2_xO.
  - by apply shr_1_half.
Qed.

Lemma shr_record_of_loc_m (m : Z) (l : SpecFloat.location) :
  shr_m (shr_record_of_loc m l) = m.
Proof. by destruct l as [|[]]. Qed.

Lemma scaled_shift (m e n : Z) :
  (0 <= m)%Z -> (0 < n)%Z -> scaled (m / 2 ^ n) (e + n) <= scaled m e.
Proof.
  intros Hm Hn. unfold scaled.
  assert (H : inject_Z (m / 2 ^ n) * inject_Z (2 ^ n) <= inject_Z m).
  { rewrite <- inject_Z_mult, <- Zle_Qle, Z.mul_comm.
    apply Z.mul_div_le. lia. }
  assert (E : (2 # 1) ^ (e + n) == (2 # 1) ^ e * inject_Z (2 ^ n)).
  { rewrite two_pow_add. rewrite (two_pow_Z n) by lia. reflexivity. }
  rewrite E.
  apply Qle_trans with (inject_Z (m / 2 ^ n) * inject_Z (2 ^ n) * (2 # 1) ^ e).
  - apply Qle_lteq. right. ring.
  - apply Qmult_le_compat_r; [exact H | apply Qlt_le_weak, two_pow_pos].
Qed.

(** Shifting a mantissa to its format exponent does not raise the
    value. *)
Lemma shr_fexp_value (m e : Z) (l : SpecFloat.location) :
  (0 <= m)%Z ->
  (0 <= shr_m (fst (shr_fexp prec emax m e l)))%Z /\
  scaled (shr_m (fst (shr_fexp prec emax m e l))) (snd (shr_fexp prec emax m e l))
    <= scaled m e.
Proof.
  intros Hm. unfold shr_fexp, shr.
  destruct (fexp prec emax (Zdigits2 m + e) - e)%Z as [|n|n] eqn:Hn;
    cbn [fst snd]; rewrite ?shr_record_of_loc_m; try (split; [done | apply Qle_refl]).
  rewrite iter_shr_1 by (by rewrite shr_record_of_loc_m).
  rewrite shr_record_of_loc_m.
  split; [apply Z.div_pos; lia |].
  apply scaled_shift; lia.
Qed.

(** When the mantissa is shifted, the new exponent is the format
    exponent. *)
Lemma shr_fexp_shifted (m e : Z) (l : SpecFloat.location) :
  snd (shr_fexp prec emax m e l) = e /\
    fst (shr_fexp prec emax m e l) = shr_record_of_loc m l
  \/ snd (shr_fexp prec emax m e l) = fexp prec emax (Zdigits2 m + e).
Proof.
  unfold shr_fexp, shr.
  destruct (fexp prec emax (Zdigits2 m + e) - e)%Z as [|n|n] eqn:Hn;
    cbn [fst snd]; [by left | right; lia | by left].
Qed.

Lemma digits2_pos_lower (m : positive) :
  (2 ^ (Zpos (digits2_pos m) - 1) <= Zpos m)%Z.
Proof.
  induction m as [m IH | m IH |]; simpl digits2_pos; [| | done].
  - rewrite Pos2Z.inj_succ.
    replace (Z.succ (Z.pos (digits2_pos m)) - 1)%Z
      with (1 + (Z.pos (digits2_pos m) - 1))%Z by lia.
    rewrite Z.pow_add_r by lia. lia.
  - rewrite Pos2Z.inj_succ.
    replace (Z.succ (Z.pos (digits2_pos m)) - 1)%Z
      with (1 + (Z.pos (digits2_pos m) - 1))%Z by lia.
    rewrite Z.pow_add_r by lia. lia.
Qed.

Lemma scaled_nonneg (m e : Z) : (0 <= m)%Z -> 0 <= scaled m e.
Proof.
  intros H. unfold scaled. apply Qmult_le_0_compat.
  - change 0 with (inject_Z 0). by rewrite <- Zle_Qle.
  - apply Qlt_le_weak, two_pow_pos.
Qed.

(** One unit at the format exponent is at most the value, or 1. *)
Lemma ulp_bound (m : positive) (e : Z) :
  (2 # 1) ^ fexp prec emax (Zdigits2 (Zpos m) + e) <= scaled (Zpos m) e + 1.
Proof.
  unfold fexp, emin, prec, emax. simpl Zdigits2.
  destruct (Z.max_spec (Z.pos (digits2_pos m) + e - 53) (3 - 1024 - 53))
    as [[_ ->] | [_ ->]].
  - pose proof (scaled_nonneg (Zpos m) e ltac:(lia)) as H0.
    apply Qle_trans with 1; [| lra].
    change 1 with ((2 # 1) ^ 0). apply two_pow_mono. lia.
  - apply Qle_trans with (scaled (Zpos m) e); [| lra].
    apply Qle_trans with (scaled (2 ^ (Zpos (digits2_pos m) - 1)) e).
    + unfold scaled. rewrite two_pow_Z by lia. rewrite <- two_pow_add.
      apply two_pow_mono. lia.
    + apply scaled_mono, digits2_pos_lower.
Qed.

Lemma round_nearest_even_le (m : Z) (l : SpecFloat.location) :
  (m <= round_nearest_even m l <= m + 1)%Z.
Proof. destruct l as [|[]]; simpl; try lia. destruct (Z.even m); lia. Qed.

Lemma scaled_succ (m e : Z) : scaled (m + 1) e == scaled m e + (2 # 1) ^ e.
Proof. unfold scaled. rewrite inject_Z_plus. change (inject_Z 1) with 1. ring. Qed.

(** Rounding the exact value [M * 2^E] to binary64 gives a zero, a
    finite number of value at most [2 * M * 2^E + 1], or an infinity
    whose exponent passes the same bound. *)
Lemma binary_round_aux_value (s : bool) (M : positive) (E : Z) :
  match binary_round_aux prec emax s (Zpos M) E loc_Exact with
  | S754_nan => False
  | S754_zero _ => True
  | S754_finite _ m e => magnitude m e <= 2 * scaled (Zpos M) E + 1
  | S754_infinity _ =>
      exists e, (emax - prec < e)%Z /\ (2 # 1) ^ e <= 2 * scaled (Zpos M) E + 1
  end.
Proof.
  unfold binary_round_aux.
  pose proof (shr_fexp_value (Zpos M) E loc_Exact ltac:(lia)) as [Hm1 Hv1].
  pose proof (shr_fexp_shifted (Zpos M) E loc_Exact) as Hs1.
  pose proof (scaled_nonneg (Zpos M) E ltac:(lia)) as HV.
  destruct (shr_fexp prec emax (Zpos M) E loc_Exact) as [mrs1 e1].
  cbn [fst snd] in *.
  set (m1 := round_nearest_even (shr_m mrs1) (loc_of_shr_record mrs1)).
  assert (Hr : (0 <= m1)%Z /\ scaled m1 e1 <= 2 * scaled (Zpos M) E + 1).
  { pose proof (round_nearest_even_le (shr_m mrs1) (loc_of_shr_record mrs1)) as Hle.
    fold m1 in Hle. split; [lia |].
    destruct Hs1 as [[-> ->] | ->].
    - subst m1. cbn. lra.
    - apply Qle_trans with (scaled (shr_m mrs1 + 1) (fexp prec emax (Zdigits2 (Zpos M) + E))).
      + apply scaled_mono. lia.
      + rewrite scaled_succ. pose proof (ulp_bound M E). lra. }
  destruct Hr as [Hm1' Hv1'].
  pose proof (shr_fexp_value m1 e1 loc_Exact Hm1') as [Hm2 Hv2].
  destruct (shr_fexp prec emax m1 e1 loc_Exact) as [mrs2 e2].
  cbn [fst snd] in *.
  destruct (shr_m mrs2) as [|m2|m2]; [done | | lia].
  destruct (e2 <=? emax - prec)%Z eqn:He.
  - rewrite magnitude_scaled. lra.
  - exists e2. split; [by apply Z.leb_gt |].
    apply Qle_trans with (scaled (Zpos m2) e2); [| lra].
    unfold scaled. rewrite <- (Qmult_1_l ((2 # 1) ^ e2)) at 1.
    apply Qmult_le_compat_r; [| apply Qlt_le_weak, two_pow_pos].
    change 1 with (inject_Z 1). rewrite <- Zle_Qle. lia.
Qed.

Lemma scaled_mul (m c e d : Z) :
  scaled (m * c) (e + d) == scaled m e * scaled c d.
Proof. unfold scaled. rewrite inject_Z_mult, two_pow_add. ring. Qed.

(** A fraction between 0 and 1 times 100 is a finite number, far below
    the size from which [toFixed] gives up on decimals. *)
Lemma mul_100_in_range (f : number) :
  is_finite f = true ->
  abs_value f <= 1 ->
  is_finite (mul f (of_Z 100)) = true /\
  abs_value (mul f (of_Z 100)) < pow10 21.
Proof.
  intros Hf Ha. destruct f as [s | s | | s m e]; try done.
  change (mul (S754_finite s m e) (of_Z 100))
    with (binary_round_aux prec emax (xorb s false)
            (Zpos (m * 7036874417766400)) (e + -46) loc_Exact).
  pose proof (binary_round_aux_value (xorb s false) (m * 7036874417766400) (e + -46)) as H.
  assert (HV : scaled (Zpos (m * 7036874417766400)) (e + -46) <= 100).
  { rewrite Pos2Z.inj_mul, scaled_mul, <- magnitude_scaled.
    assert (Hc : scaled (Zpos 7036874417766400) (-46) == 100) by reflexivity.
    rewrite Hc. simpl in Ha. lra. }
  destruct (binary_round_aux _ _ _ _ _) as [s' | s' | | s' m' e']; cbn [is_finite abs_value].
  - split; [done | reflexivity].
  - destruct H as (e2 & He2 & Hp). exfalso.
    assert ((2 # 1) ^ 8 <= (2 # 1) ^ e2) as H8.
    { apply two_pow_mono. unfold emax, prec in He2. lia. }
    change ((2 # 1) ^ 8) with (256 # 1) in H8. lra.
  - done.
  - split; [done |].
    apply Qle_lt_trans with (2 * scaled (Zpos (m * 7036874417766400)) (e + -46) + 1);
      [exact H |].
    apply Qle_lt_trans with 201; [lra | reflexivity].
Qed.

Lemma mul_nonneg_sign (f y : number) :
  is_negative f = false -> is_negative y = false -> is_negative (mul f y) = false.
Proof.
  intros Hf Hy. destruct f as [s | s | | s m e], y as [t | t | | t m' e'];
    try reflexivity.
  simpl in Hf, Hy. subst s t. unfold mul, SFmul, binary_round_aux.
  destruct (shr_fexp _ _ _ _ _) as [mrs1 e1].
  destruct (shr_fexp _ _ _ _ _) as [mrs2 e2].
  destruct (shr_m mrs2); [reflexivity | | reflexivity].
  by destruct (_ <=? _)%Z.
Qed.

Local Close Scope Q_scope.

(** ** A length is positive unless it is zero *)

Lemma shr_fexp_positive (m e : Z) (l : SpecFloat.location) :
  (1 <= m)%Z -> (emin prec emax <= e)%Z ->
  (1 <= shr_m (fst (shr_fexp prec emax m e l)))%Z /\
  (emin prec emax <= snd (shr_fexp prec emax m e l))%Z.
Proof.
  intros Hm He. unfold shr_fexp, shr.
  destruct (fexp prec emax (Zdigits2 m + e) - e)%Z as [| n | n] eqn:Hn;
    cbn [fst snd]; rewrite ?shr_record_of_loc_m; try (split; lia).
  rewrite iter_shr_1 by (rewrite shr_record_of_loc_m; lia).
  rewrite shr_record_of_loc_m.
  destruct m as [| p | p]; try lia.
  pose proof (digits2_pos_lower p) as Hd.
  unfold fexp in Hn. simpl Zdigits2 in Hn. unfold prec in Hn at 1.
  split; [| lia].
  assert (Hle : (2 ^ Z.pos n <= 2 ^ (Z.pos (digits2_pos p) - 1))%Z).
  { apply Z.pow_le_mono_r; lia. }
  assert (H2 : (0 < 2 ^ Z.pos n)%Z) by (apply Z.pow_pos_nonneg; lia).
  pose proof (Z.div_str_pos (Z.pos p) (2 ^ Z.pos n)) as Hdiv. lia.
Qed.

(** A positive integer, as a Number, is a positive finite number or
    positive infinity. *)
Lemma of_Z_positive (M : positive) :
  (exists m e, of_Z (Zpos M) = S754_finite false m e) \/
  of_Z (Zpos M) = S754_infinity false.
Proof.
  unfold of_Z, binary_normalize, binary_round.
  destruct (shl_align M 0 (fexp prec emax (Z.pos (digits2_pos M) + 0)))
    as [mz ez] eqn:Hs.
  assert (Hez : (emin prec emax <= ez)%Z).
  { unfold shl_align in Hs.
    destruct (fexp prec emax (Z.pos (digits2_pos M) + 0) - 0)%Z eqn:Hf;
      inversion Hs; subst; try (unfold emin, prec, emax; lia).
    unfold fexp. lia. }
  unfold binary_round_aux.
  destruct (shr_fexp_positive (Zpos mz) ez loc_Exact ltac:(lia) Hez) as [H1 H2].
  destruct (shr_fexp prec emax (Z.pos mz) ez loc_Exact) as [mrs1 e1].
  cbn [fst snd] in H1, H2.
  pose proof (round_nearest_even_le (shr_m mrs1) (loc_of_shr_record mrs1)) as Hr.
  destruct (shr_fexp_positive (round_nearest_even (shr_m mrs1) (loc_of_shr_record mrs1))
              e1 loc_Exact ltac:(lia) H2) as [H3 _].
  destruct (shr_fexp prec emax _ e1 loc_Exact) as [mrs2 e2].
  cbn [fst] in H3.
  destruct (shr_m mrs2) as [| m | m]; try lia.
  destruct (e2 <=? emax - prec)%Z; [left; eauto | by right].
Qed.

Lemma gt0_length (n : nat) :
  gt0 (VNum (of_nat n)) = Normal (negb (Nat.eqb n 0)).
Proof.
  unfold gt0, ToNumber, of_nat. destruct n as [| n]; [reflexivity |].
  change (Z.of_nat (S n)) with (Zpos (Pos.of_succ_nat n)).
  destruct (of_Z_positive (Pos.of_succ_nat n)) as [(m & e & ->) | ->]; reflexivity.
Qed.
(** ** What the handlers do to the Poller *)


Lemma poller_move_consistent p q :
  poller_move p q -> consistent p -> consistent q.
Proof.
  induction 1 as [p q H | p | p | p q r _ IH1 _ IH2]; intros Hp.
  - by apply (consistent_same_timers p).
  - by apply stop_consistent.
  - by apply start_consistent.
  - by apply IH2, IH1.
Qed.

Lemma consistent_stopped p :
  consistent p -> statusInterval p = Null -> polling p = ∅.
Proof. intros [Hp _] Hs. by rewrite Hp, Hs. Qed.

Lemma same_timers_move {A} (c : M A) :
  respects same_timers c -> respects poller_move c.
Proof. intros H p. apply move_none, H. Qed.

Lemma stop_move : respects poller_move stopPollingStatus.
Proof. intros p. apply move_stop. Qed.

Lemma start_move : respects poller_move startPollingStatus.
Proof. intros p. apply move_start. Qed.

Section Rows.
Context (R : page -> page -> Prop) `{!PreOrder R}.
Hypothesis appendChild_respects : forall r, respects R (appendChild r).

Lemma make_row_respects item : respects R (make_row item).
Proof. unfold make_row. respects_steps. Qed.

Lemma append_rows_respects items : respects R (append_rows items).
Proof.
  induction items as [| item items IH]; cbn [append_rows]; [respects_steps |].
  respects_steps; [apply make_row_respects | apply appendChild_respects | exact IH].
Qed.

Lemma forEach_row_respects results : respects R (forEach_row results).
Proof.
  destruct results; cbn [forEach_row];
    first [apply append_rows_respects | respects_steps].
Qed.

End Rows.

Lemma make_row_page item p : snd (make_row item p) = p.
Proof.
  assert (PreOrder (fun p q : page => q = p)).
  { split; [by intros ? | intros ? ? ? ? ?; congruence]. }
  revert p. change (respects (fun p q => q = p) (make_row item)).
  by apply make_row_respects.
Qed.

Lemma fetch_same_timers_respects r : respects same_timers (fetchAndDisplayResults r).
Proof.
  unfold fetchAndDisplayResults. respects_steps;
    first [ apply forEach_row_respects; [exact _ | intros row; respects_modify_with ltac:(by split)]
          | respects_modify_with ltac:(by split) ].
Qed.

Lemma fetch_same_timers r p :
  same_timers p (exec (fetchAndDisplayResults r) p).
Proof. apply fetch_same_timers_respects. Qed.

Lemma updateUI_move data : respects poller_move (updateUI data).
Proof. apply same_timers_move, updateUI_same_timers. Qed.

Lemma poll_tick_move_respects r : respects poller_move (poll_tick r).
Proof.
  unfold poll_tick, results_available.
  respects_steps;
    first [ apply updateUI_move | apply stop_move
          | respects_modify_with ltac:(apply move_none; by split) ].
Qed.

Lemma poll_tick_move r p : poller_move p (exec (poll_tick r) p).
Proof. apply poll_tick_move_respects. Qed.

Lemma start_reply_move_respects r : respects poller_move (start_reply r).
Proof.
  unfold start_reply.
  respects_steps;
    first [ apply start_move
          | respects_modify_with ltac:(apply move_none; by split) ].
Qed.

Lemma start_reply_move r p : poller_move p (exec (start_reply r) p).
Proof. apply start_reply_move_respects. Qed.

Lemma stop_reply_same_timers r : respects same_timers (stop_reply r).
Proof. unfold stop_reply. respects_steps; respects_modify_with ltac:(by split). Qed.

Lemma start_click_same_timers f : respects same_timers (start_click f).
Proof. unfold start_click. cbv zeta. respects_steps; respects_modify_with ltac:(by split). Qed.
(** ** The polling tick *)

(** What the [catch] block of the tick leaves. *)
Lemma poll_catch_effect q :
  let r := exec poll_catch q in
  statusInterval r = Null /\
  timers r = match statusInterval q with
             | Timer id => delete id (timers q)
             | _ => timers q
             end /\
  (forall n, disabled (elem n r) = disabled (elem n q)) /\
  (forall n, n <> statusMessage -> elem n r = elem n q) /\
  textContent (elem statusMessage r) = poll_failure_text /\
  resultsBody r = resultsBody q /\
  console r = console q ++ ["Error polling status:"].
Proof.
  cbv zeta. unfold poll_catch, exec. cbv [mbind M_bind mret M_ret].
  cbn [console_error set_textContent modify]. rewrite stop_run. cbn [snd].
  destruct (statusInterval q) eqn:Hs; cbn; rewrite ?Hs;
    (repeat split; [intros n; by destruct n | intros n Hn; by destruct n]).
Qed.

Lemma poll_tick_failed r p :
  fetch_failed r -> exec (poll_tick r) p = exec poll_catch p.
Proof. intros [-> | [ok ->]]; reflexivity. Qed.

Lemma poll_tick_throws ok data p :
  renders data = false ->
  exec (poll_tick (Response ok (Some data))) p = exec poll_catch (exec (updateUI data) p).
Proof.
  intros Hr. unfold exec at 1. unfold poll_tick, try_catch, receive.
  cbv [mbind M_bind mret M_ret]. rewrite updateUI_throws by done. reflexivity.
Qed.

Lemma poll_tick_renders ok data p :
  renders data = true ->
  exec (poll_tick (Response ok (Some data))) p =
  let q := exec (updateUI data) p in
  if negb (ToBoolean (field data "scraping_active")) && disabled (elem startButton p)
  then exec (try_catch (teardown data) (fun _ => poll_catch)) q
  else q.
Proof.
  intros Hr. unfold exec at 1. unfold poll_tick, try_catch, receive.
  cbv [mbind M_bind mret M_ret]. rewrite updateUI_run by done.
  unfold prop, lift, gets. rewrite (get_readable data) by by apply renders_readable.
  pose proof (updateUI_keeps_flags data p startButton) as Hk.
  change (snd (updateUI data p)) with (exec (updateUI data) p) in Hk.
  cbn [gets]. rewrite Hk.
  cbv zeta.
  destruct (negb (ToBoolean (field data "scraping_active")) && disabled (elem startButton p));
    reflexivity.
Qed.

(** The statements of lines 23 to 28, with the [catch] block behind
    them. *)
Lemma finish_effect data q :
  readable data = true ->
  let r := exec (try_catch (teardown data) (fun _ => poll_catch)) q in
  statusInterval r = Null /\
  timers r = match statusInterval q with
             | Timer id => delete id (timers q)
             | _ => timers q
             end /\
  disabled (elem startButton r) = false /\
  disabled (elem stopButton r) = true /\
  disabled (elem downloadButton r) =
    match results_guard data with
    | Normal true => false
    | _ => disabled (elem downloadButton q)
    end /\
  textContent (elem statusMessage r) =
    match results_guard data with
    | Normal _ => textContent (elem statusMessage q)
    | Throw _ => poll_failure_text
    end /\
  resultsBody r = resultsBody q.
Proof.
  intros Hr. cbv zeta. unfold teardown, poll_catch, exec, try_catch, when.
  cbv [mbind M_bind mret M_ret]. rewrite stop_run.
  cbn [set_disabled set_textContent console_error modify].
  rewrite results_available_run by done.
  destruct (results_guard data) as [[|] | e]; rewrite ?stop_run;
    destruct (statusInterval q); cbn; done.
Qed.

(** The guard of line 26, by the shape of [results_df]. *)
Lemma results_guard_cases data :
  results_guard data =
  match field data "results_df" with
  | VArr items => Normal (negb (Nat.eqb (List.length items) 0))
  | VStr s => Normal (negb (Nat.eqb (String.length s) 0))
  | VObj props => gt0 (lookup_prop "length" props)
  | _ => Normal false
  end.
Proof.
  unfold results_guard.
  destruct (field data "results_df") as [| | [|] | n | s | items | props];
    try reflexivity.
  - cbn [ToBoolean]. by destruct (negb _).
  - cbn [ToBoolean]. destruct s as [| c s]; [reflexivity |].
    cbn [String.eqb negb field get]. apply (gt0_length (String.length (String c s))).
  - apply (gt0_length (List.length items)).
Qed.

(** A tick that finds the job over on a locked page, for a snapshot that
    can be shown. *)
Lemma tick_finish ok data p :
  renders data = true ->
  ToBoolean (field data "scraping_active") = false ->
  disabled (elem startButton p) = true ->
  let q := exec (poll_tick (Response ok (Some data))) p in
  statusInterval q = Null /\
  timers q = match statusInterval p with
             | Timer id => delete id (timers p)
             | _ => timers p
             end /\
  disabled (elem startButton q) = false /\
  disabled (elem stopButton q) = true /\
  disabled (elem downloadButton q) =
    match results_guard data with
    | Normal true => false
    | _ => disabled (elem downloadButton p)
    end /\
  resultsBody q = resultsBody p.
Proof.
  intros Hr Ha Hlock. cbv zeta. rewrite poll_tick_renders by done.
  rewrite Ha, Hlock. cbn [negb andb]. cbv zeta.
  destruct (finish_effect data (exec (updateUI data) p) (renders_readable _ Hr))
    as (H1 & H2 & H3 & H4 & H5 & _ & H7).
  cbv zeta in *.
  destruct (updateUI_same_timers data p) as [Hs Ht _].
  change (snd (updateUI data p)) with (exec (updateUI data) p) in Hs, Ht.
  rewrite Hs, Ht in H2.
  pose proof (updateUI_keeps_flags data p downloadButton) as Hd.
  change (snd (updateUI data p)) with (exec (updateUI data) p) in Hd.
  rewrite Hd in H5.
  pose proof (updateUI_keeps_table data p) as Hb. unfold keeps_table in Hb.
  change (snd (updateUI data p)) with (exec (updateUI data) p) in Hb.
  rewrite Hb in H7. done.
Qed.

(** A tick whose snapshot cannot be shown, or whose request fails, ends
    in the [catch] block: no control changes, the Poller is stopped. *)
Lemma tick_caught ok data p :
  renders data = false ->
  let q := exec (poll_tick (Response ok (Some data))) p in
  (forall n, disabled (elem n q) = disabled (elem n p)) /\
  (forall n, In n controls -> elem n q = elem n p) /\
  (forall n, ~ In n indicators -> elem n q = elem n p) /\
  resultsBody q = resultsBody p /\
  statusInterval q = Null /\
  textContent (elem statusMessage q) = poll_failure_text.
Proof.
  intros Hr. cbv zeta. rewrite poll_tick_throws by done.
  destruct (poll_catch_effect (exec (updateUI data) p))
    as (H1 & _ & H3 & H4 & H5 & H6 & _). cbv zeta in *.
  pose proof (updateUI_keeps_flags data p) as Hf.
  pose proof (updateUI_keeps_controls data p) as Hc.
  pose proof (updateUI_keeps_others data p) as Ho.
  pose proof (updateUI_keeps_table data p) as Hb.
  unfold keeps_flags, keeps_controls, keeps_others, keeps_table in *.
  change (snd (updateUI data p)) with (exec (updateUI data) p) in *.
  repeat split; try done.
  - intros n. by rewrite H3, Hf.
  - intros n Hn. rewrite H4, Hc; [done | done |].
    intros ->. cbn in Hn. by repeat destruct Hn as [Hn | Hn].
  - intros n Hn. rewrite H4, Ho; [done | done |].
    intros ->. apply Hn. cbn. tauto.
  - by rewrite H6, Hb.
Qed.

(** A tick that does not reach line 23, for a snapshot that can be
    shown: it is [updateUI]. *)
Lemma tick_shows ok data p :
  renders data = true ->
  negb (ToBoolean (field data "scraping_active")) && disabled (elem startButton p) = false ->
  exec (poll_tick (Response ok (Some data))) p = exec (updateUI data) p.
Proof. intros Hr Hc. rewrite poll_tick_renders by done. by rewrite Hc. Qed.

Lemma tick_polling_stopped r p :
  statusInterval (exec (poll_tick r) p) = Null ->
  consistent p -> polling (exec (poll_tick r) p) = ∅.
Proof.
  intros Hs Hp. apply consistent_stopped; [| exact Hs].
  apply (poller_move_consistent p); [apply poll_tick_move | exact Hp].
Qed.

(** C1, as the script has it. A tick whose snapshot says the job is not
    active and can be shown, arriving while the start control is
    disabled, stops the Poller, enables start and disables stop; it
    enables download when [results_df] is a non-empty array (or any
    other value whose [length] is above zero) and leaves it as it was
    otherwise. When a shown property of the snapshot cannot be
    converted, [updateUI] throws before line 22: the [catch] block stops
    the Poller and shows its message, and no control changes, so the
    start control stays disabled. When the start control is enabled,
    the snapshot changes no control, and no timer if it can be shown. *)
Theorem C1_teardown_on_locked_and_inactive
    (p : page) (data : value) (ok : bool) (a : value) :
  get data "scraping_active" = Normal a ->
  ToBoolean a = false ->
  let q := exec (poll_tick (Response ok (Some data))) p in
  (renders data = true -> disabled (elem startButton p) = true ->
     statusInterval q = Null /\
     (forall id, statusInterval p = Timer id -> timers q !! id = None) /\
     (consistent p -> polling q = ∅) /\
     disabled (elem startButton q) = false /\
     disabled (elem stopButton q) = true /\
     disabled (elem downloadButton q) =
       match field data "results_df" with
       | VArr (_ :: _) | VStr (String _ _) => false
       | VObj props =>
           match ToNumber (lookup_prop "length" props) with
           | Normal n =>
               if ltb (zero false) n then false
               else disabled (elem downloadButton p)
           | Throw _ => disabled (elem downloadButton p)
           end
       | _ => disabled (elem downloadButton p)
       end)
  /\
  (renders data = false ->
     (forall n, disabled (elem n q) = disabled (elem n p)) /\
     statusInterval q = Null /\
     (consistent p -> polling q = ∅) /\
     textContent (elem statusMessage q) = poll_failure_text)
  /\
  (disabled (elem startButton p) = false ->
     (forall n, In n controls -> elem n q = elem n p) /\
     (renders data = true -> same_timers p q)).
Proof.
  intros Ha Hf. apply get_Normal_readable in Ha as [Hread Ha].
  cbv zeta. split; [| split].
  - intros Hr Hlock.
    destruct (tick_finish ok data p Hr ltac:(by rewrite Ha) Hlock)
      as (H1 & H2 & H3 & H4 & H5 & _). cbv zeta in *.
    split; [exact H1 |]. split; [| split; [| split; [exact H3 | split; [exact H4 |]]]].
    + intros id Hid. rewrite H2, Hid. apply lookup_delete_eq.
    + by apply tick_polling_stopped.
    + rewrite H5, results_guard_cases.
      destruct (field data "results_df") as [| | b | n | [| c s] | [| x l] | props];
        try reflexivity.
      unfold gt0. destruct (ToNumber (lookup_prop "length" props)) as [n | e];
        [by destruct (ltb (zero false) n) | reflexivity].
  - intros Hr.
    destruct (tick_caught ok data p Hr) as (H1 & _ & _ & _ & H5 & H6). cbv zeta in *.
    split; [exact H1 |]. split; [exact H5 |]. split; [| exact H6].
    by apply tick_polling_stopped.
  - intros Hunlocked. split.
    + destruct (renders data) eqn:Hr.
      * rewrite tick_shows by (by rewrite ?Hunlocked, ?andb_false_r).
        apply updateUI_keeps_controls.
      * by destruct (tick_caught ok data p Hr) as (_ & H2 & _).
    + intros Hr. rewrite tick_shows by (by rewrite ?Hunlocked, ?andb_false_r).
      apply updateUI_same_timers.
Qed.

Lemma C1_witness :
  get finished_with_results "scraping_active" = Normal (VBool false) /\
  renders finished_with_results = true /\
  disabled (elem startButton running_page) = true /\
  control_states
    (exec (poll_tick (Response true (Some finished_with_results))) running_page)
  = (false, true, false).
Proof.
  split; [reflexivity |]. split; [reflexivity |]. split; [reflexivity |].
  destruct (C1_teardown_on_locked_and_inactive running_page
              finished_with_results true (VBool false) eq_refl eq_refl) as [H _].
  destruct (H eq_refl eq_refl) as (_ & _ & _ & Hs & Ht & Hd).
  unfold control_states. rewrite Hs, Ht, Hd. reflexivity.
Defined.

(** C1 as stated fails: on the locked page of a running job, the tick
    [{scraping_active: false, status_message: {toString: 1}}] leaves the
    start control disabled and the stop control enabled; the Poller is
    stopped by the [catch] block. *)
Lemma C1_start_stays_disabled :
  get opaque_finished "scraping_active" = Normal (VBool false) /\
  disabled (elem startButton running_page) = true /\
  let q := exec (poll_tick (Response true (Some opaque_finished))) running_page in
  control_states q = (true, false, true) /\
  statusInterval q = Null /\
  textContent (elem statusMessage q) = poll_failure_text.
Proof. vm_compute. repeat split; reflexivity. Qed.



(** C2, as the script has it. A tick that reports the job over without a
    [results_df] (as [{active: false, scraped_count: 3}] does) and can
    be shown, arriving while the start control is disabled, disables
    stop, enables start and stops the Poller; the download control is
    left as it was. *)
Theorem C2_finished_snapshot_without_results_df
    (p : page) (data : value) (ok : bool) (a : value) :
  get data "scraping_active" = Normal a ->
  ToBoolean a = false ->
  renders data = true ->
  field data "results_df" = VUndefined ->
  disabled (elem startButton p) = true ->
  let q := exec (poll_tick (Response ok (Some data))) p in
  disabled (elem stopButton q) = true /\
  disabled (elem startButton q) = false /\
  statusInterval q = Null /\
  (consistent p -> polling q = ∅) /\
  disabled (elem downloadButton q) = disabled (elem downloadButton p).
Proof.
  intros Ha Hf Hr Hdf Hlock. apply get_Normal_readable in Ha as [Hread Ha].
  destruct (tick_finish ok data p Hr ltac:(by rewrite Ha) Hlock)
    as (H1 & _ & H3 & H4 & H5 & _). cbv zeta in *.
  split; [exact H4 |]. split; [exact H3 |]. split; [exact H1 |].
  split; [by apply tick_polling_stopped |].
  rewrite H5, results_guard_cases, Hdf. reflexivity.
Qed.

Lemma C2_witness :
  get finished_snapshot "scraping_active" = Normal (VBool false) /\
  renders finished_snapshot = true /\
  field finished_snapshot "results_df" = VUndefined /\
  disabled (elem startButton running_page) = true /\
  control_states
    (exec (poll_tick (Response true (Some finished_snapshot))) running_page)
  = (false, true, disabled (elem downloadButton running_page)).
Proof.
  split; [reflexivity |]. split; [reflexivity |]. split; [reflexivity |].
  split; [reflexivity |].
  destruct (C2_finished_snapshot_without_results_df running_page
              finished_snapshot true (VBool false) eq_refl eq_refl eq_refl eq_refl eq_refl)
    as (Hstop & Hstart & _ & _ & Hdl).
  unfold control_states. rewrite Hstop, Hstart, Hdl. reflexivity.
Defined.

(** C2 as stated fails: after an accepted start, the tick
    [{scraping_active: false, scraped_count: 3}] leaves the download
    control disabled. *)
Lemma C2_download_not_enabled :
  option_map control_states
    (page_after (start_accepted ++
       [TimerFires 2; ReplyArrives 0 (Response true (Some finished_snapshot))]))
  = Some (false, true, true).
Proof. vm_compute. reflexivity. Qed.
(** ** Progress bars *)

Lemma primitive_is_convertible v : primitive v = true -> convertible v = true.
Proof. by destruct v. Qed.

Lemma primitive_renders data :
  readable data = true ->
  (forall name, In name shown_fields -> primitive (field data name) = true) ->
  renders data = true.
Proof.
  intros Hr Hp. unfold renders. rewrite Hr. cbn [andb].
  apply forallb_forall. intros name Hn. by apply primitive_is_convertible, Hp.
Qed.

(** What [toFixed(1)] writes for a finite number below [10^21]. *)
Lemma toFixed1_finite (s : bool) (m : positive) (e : Z) :
  (magnitude m e < pow10 21)%Q ->
  toFixed1 (S754_finite s m e)
  = (if s then "-" else "") +:+ one_decimal (tenths (magnitude m e)).
Proof. intros Hlt. by rewrite toFixed1_one_decimal. Qed.

Lemma toFixed1_zero (s : bool) : toFixed1 (S754_zero s) = "0.0".
Proof. by destruct s; vm_compute. Qed.

(** A fraction between 0 and 1 times 100: zero, or a positive number
    below [10^21]. *)
Lemma fraction_times_100 (f : number) :
  (exists s, f = S754_zero s) \/
    (exists m e, f = S754_finite false m e /\ (magnitude m e <= 1)%Q) ->
  (exists s, mul f (of_Z 100) = S754_zero s) \/
  (exists m e, mul f (of_Z 100) = S754_finite false m e /\
               (magnitude m e < pow10 21)%Q).
Proof.
  intros [[s ->] | (m & e & -> & Hm)].
  - left. exists (xorb s false). reflexivity.
  - destruct (mul_100_in_range (S754_finite false m e) eq_refl Hm) as [Hf Hb].
    pose proof (mul_nonneg_sign (S754_finite false m e) (of_Z 100) eq_refl eq_refl) as Hs.
    destruct (mul (S754_finite false m e) (of_Z 100)) as [s' | s' | | s' m' e'];
      try discriminate Hf.
    + left. by exists s'.
    + right. cbn in Hs. subst s'. by exists m', e'.
Qed.

(** The bars of a snapshot that can be shown. *)
Lemma updateUI_bars data p bar name :
  renders data = true ->
  In (bar, name) bars ->
  exists f,
    ToNumber (field data name) = Normal f /\
    textContent (elem bar (exec (updateUI data) p)) = toFixed1 (mul f (of_Z 100)) +:+ "%" /\
    style_width (elem bar (exec (updateUI data) p)) = toFixed1 (mul f (of_Z 100)) +:+ "%".
Proof.
  intros Hr Hin.
  destruct (updateUI_texts data p Hr) as (_ & Hx & Hy & _). cbv zeta in *.
  destruct Hin as [Hin | [Hin | []]]; inversion Hin; subst bar name; assumption.
Qed.

(** C6, as the script has it. [updateUI] completes exactly on the
    snapshots whose shown properties can be converted, and throws a
    [TypeError] on the others; it completes whenever these properties
    are not arrays or objects, numbers or not. When it completes, each
    bar gets as text its progress value, converted to a number, times
    100, written by [toFixed(1)], then a percent sign, and its width is
    that same string. When the product is finite and below [10^21],
    [toFixed(1)] writes the sign and the number of tenths nearest to it,
    with one decimal; for a fraction between 0 and 1 this is always so,
    without a sign. *)
Theorem C6_progress_bars (p : page) (data : value) :
  let q := exec (updateUI data) p in
  fst (updateUI data p) = (if renders data then Normal tt else Throw TypeError) /\
  (readable data = true ->
   (forall name, In name shown_fields -> primitive (field data name) = true) ->
   renders data = true) /\
  (renders data = true ->
   forall bar name, In (bar, name) bars ->
   exists f,
     ToNumber (field data name) = Normal f /\
     (forall f', field data name = VNum f' -> f = f') /\
     (forall t, field data name = VStr t -> f = of_string t) /\
     textContent (elem bar q) = toFixed1 (mul f (of_Z 100)) +:+ "%" /\
     style_width (elem bar q) = textContent (elem bar q) /\
     (forall s m e, mul f (of_Z 100) = S754_finite s m e ->
        (magnitude m e < pow10 21)%Q ->
        let n := tenths (magnitude m e) in
        textContent (elem bar q)
          = (if s then "-" else "") +:+ one_decimal n +:+ "%" /\
        (inject_Z n - (1 # 2) <= magnitude m e * 10 /\
         magnitude m e * 10 < inject_Z n + (1 # 2))%Q) /\
     (forall s, mul f (of_Z 100) = S754_zero s -> textContent (elem bar q) = "0.0%") /\
     ((exists s, f = S754_zero s) \/
        (exists m e, f = S754_finite false m e /\ (magnitude m e <= 1)%Q) ->
      textContent (elem bar q) = "0.0%" \/
      exists m e, mul f (of_Z 100) = S754_finite false m e /\
        textContent (elem bar q) = one_decimal (tenths (magnitude m e)) +:+ "%")).
Proof.
  cbv zeta. split; [apply updateUI_completes |].
  split; [apply primitive_renders |].
  intros Hr bar name Hin.
  destruct (updateUI_bars data p bar name Hr Hin) as (f & Hf & Ht & Hw).
  exists f. split; [exact Hf |].
  split. { intros f' Hv. rewrite Hv in Hf. by inversion Hf. }
  split. { intros t Hv. rewrite Hv in Hf. by inversion Hf. }
  split; [exact Ht |]. split; [exact (eq_trans Hw (eq_sym Ht)) |].
  assert (Hfin : forall s m e, mul f (of_Z 100) = S754_finite s m e ->
            (magnitude m e < pow10 21)%Q ->
            textContent (elem bar (exec (updateUI data) p))
            = (if s then "-" else "") +:+ one_decimal (tenths (magnitude m e)) +:+ "%").
  { intros s m e Hx Hlt. rewrite Ht, Hx, toFixed1_finite by done.
    destruct s; [| reflexivity]. by rewrite <- append_assoc. }
  assert (Hzero : forall s, mul f (of_Z 100) = S754_zero s ->
            textContent (elem bar (exec (updateUI data) p)) = "0.0%").
  { intros s Hx. by rewrite Ht, Hx, toFixed1_zero. }
  split. { intros s m e Hx Hlt. split; [by apply Hfin | apply tenths_nearest]. }
  split; [exact Hzero |].
  intros Hfrac. destruct (fraction_times_100 f Hfrac) as [[s Hx] | (m & e & Hx & Hlt)].
  - left. by apply (Hzero s).
  - right. exists m, e. split; [exact Hx |]. by rewrite (Hfin false m e).
Qed.

Lemma C6_witness :
  renders running_snapshot = true /\
  textContent (elem linkProgressBar (exec (updateUI running_snapshot) running_page))
    = "50.0%" /\
  style_width (elem linkProgressBar (exec (updateUI running_snapshot) running_page))
    = "50.0%".
Proof.
  split; [reflexivity |].
  destruct (C6_progress_bars running_page running_snapshot) as (_ & _ & Hbars).
  destruct (Hbars eq_refl linkProgressBar "link_collection_progress")
    as (f & Hf & Hnum & _ & Ht & Hw & _); [left; reflexivity |].
  rewrite Hw, Ht, (Hnum half eq_refl). split; vm_compute; reflexivity.
Defined.

(** C6 as stated fails: a progress value that is an object with a member
    called [toString] makes [updateUI] throw on line 46, after the
    status text has been set and before any bar is. *)
Lemma C6_progress_object_throws :
  readable opaque_progress = true /\
  fst (updateUI opaque_progress running_page) = Throw TypeError /\
  elem linkProgressBar (exec (updateUI opaque_progress) running_page)
    = elem linkProgressBar running_page /\
  textContent (elem statusMessage (exec (updateUI opaque_progress) running_page))
    = "Collecting links".
Proof. vm_compute. repeat split; reflexivity. Qed.

(** Progress values that are not fractions in [0, 1]. *)
Example percent_of_text : percent (VStr "soon") = Normal "NaN".
Proof. vm_compute. reflexivity. Qed.

Example percent_of_missing : percent VUndefined = Normal "NaN".
Proof. vm_compute. reflexivity. Qed.

Example percent_of_null : percent VNull = Normal "0.0".
Proof. vm_compute. reflexivity. Qed.

Example percent_of_negative : percent (VNum (of_ratio true 1 4)) = Normal "-25.0".
Proof. vm_compute. reflexivity. Qed.

Example percent_of_large : percent (VNum (of_Z (10 ^ 19))) = Normal "1e+21".
Proof. vm_compute. reflexivity. Qed.

Example percent_of_third : percent (VNum (of_ratio false 1 3)) = Normal "33.3".
Proof. vm_compute. reflexivity. Qed.

Example percent_of_digits : percent (VStr " 0.125 ") = Normal "12.5".
Proof. vm_compute. reflexivity. Qed.

Example percent_of_array : percent (VArr [VStr "0.5"]) = Normal "50.0".
Proof. vm_compute. reflexivity. Qed.

Example percent_of_object : percent (VObj [("value", VNum half)]) = Normal "NaN".
Proof. vm_compute. reflexivity. Qed.

Example percent_of_opaque : percent opaque_object = Throw TypeError.
Proof. vm_compute. reflexivity. Qed.
(** ** The Job Controller *)

(** The status text a handler leaves: the message of the reply when it
    can be shown, the text of its [catch] block otherwise. *)
Lemma reply_message_cases (r : reply) :
  (exists ok data t, r = Response ok (Some data) /\ readable data = true /\
     reply_message r = Some (field data "message") /\
     shows_message r = true /\ text_of (field data "message") = Normal t) \/
  (shows_message r = false /\
   (r = Rejected \/ (exists ok, r = Response ok None) \/
    (exists ok data, r = Response ok (Some data) /\
       (readable data = false \/
        (readable data = true /\ text_of (field data "message") = Throw TypeError))))).
Proof.
  destruct r as [| ok [data |]]; [right; split; [done | by left] | |
                                  right; split; [done | right; left; by exists ok]].
  unfold shows_message, reply_message.
  destruct (readable data) eqn:Hr.
  - destruct (text_of_cases (field data "message")) as [[Hc [t Ht]] | [Hc Ht]].
    + left. exists ok, data, t. by rewrite Hc.
    + right. rewrite Hc. split; [done |]. right; right. exists ok, data. split; [done |].
      right. done.
  - right. split; [done |]. right; right. exists ok, data. split; [done |]. by left.
Qed.

Lemma start_reply_failed (p : page) (r : reply) :
  start_failed r ->
  let q := exec (start_reply r) p in
  disabled (elem startButton q) = false /\
  disabled (elem stopButton q) = true /\
  elem downloadButton q = elem downloadButton p /\
  resultsBody q = resultsBody p /\
  same_timers p q /\
  (forall v, reply_message r = Some v -> convertible v = true ->
     text_of v = Normal (textContent (elem statusMessage q))) /\
  (shows_message r = false ->
     textContent (elem statusMessage q) = start_failure_text).
Proof.
  intros Hfail. cbv zeta.
  assert (Hno : forall (P : value -> Prop), shows_message r = false ->
            forall v, reply_message r = Some v -> convertible v = true -> P v).
  { intros P Hs v Hv Hc. unfold shows_message in Hs. rewrite Hv in Hs. congruence. }
  destruct (reply_message_cases r)
    as [(ok & data & t & -> & Hr & Hm & Hs & Ht)
       | (Hs & [-> | [[ok ->] | (ok & data & -> & [Hr | [Hr Ht]])]])].
  - assert (ok = false) as ->.
    { destruct Hfail as [H | [body H]]; [discriminate H | by inversion H]. }
    unfold exec, start_reply, try_catch, receive, assign_textContent, prop, lift.
    cbv [mbind M_bind mret M_ret]. rewrite (get_readable data) by done.
    rewrite Ht. cbn.
    repeat split; try done.
    + intros v Hv _. rewrite Hm in Hv. inversion Hv. subst v. exact Ht.
    + intros H. congruence.
  - cbn. repeat split; try done; by apply Hno.
  - cbn. repeat split; try done; by apply Hno.
  - unfold exec, start_reply, try_catch, receive, assign_textContent, prop, lift.
    cbv [mbind M_bind mret M_ret]. rewrite (get_unreadable data) by done.
    cbn. repeat split; try done; by apply Hno.
  - unfold exec, start_reply, try_catch, receive, assign_textContent, prop, lift.
    cbv [mbind M_bind mret M_ret]. rewrite (get_readable data) by done.
    rewrite Ht. cbn. repeat split; try done; by apply Hno.
Qed.



(** C10. The start click empties the table and disables the download
    control before it sends its request. When the start then fails, the
    start and stop controls go back to enabled and disabled (what they
    were before a click made with the stop control disabled), while the
    handler touches neither the table nor the download control: with
    nothing in between, the table is still empty and the download control
    still disabled. *)
Theorem C10_failed_start_restores_no_table
    (p : page) (f : form) (r : reply) :
  start_failed r ->
  let p1 := exec (start_click f) p in
  let p2 := exec (start_reply r) p1 in
  fst (start_click f p) = Normal (POST "/start-scraping" (Some (config f))) /\
  (resultsBody p1 = [] /\ disabled (elem downloadButton p1) = true /\
   disabled (elem startButton p1) = true /\ disabled (elem stopButton p1) = false) /\
  (resultsBody p2 = [] /\ disabled (elem downloadButton p2) = true /\
   disabled (elem startButton p2) = false /\ disabled (elem stopButton p2) = true) /\
  (disabled (elem startButton p) = false -> disabled (elem stopButton p) = true ->
   disabled (elem startButton p2) = disabled (elem startButton p) /\
   disabled (elem stopButton p2) = disabled (elem stopButton p)) /\
  (forall q, resultsBody (exec (start_reply r) q) = resultsBody q /\
             elem downloadButton (exec (start_reply r) q) = elem downloadButton q).
Proof.
  intros Hr. cbv zeta.
  destruct (start_reply_failed (exec (start_click f) p) r Hr)
    as (Hs & Ht & Hd & Hb & _). cbv zeta in *.
  split; [reflexivity |]. split; [by repeat split |].
  split; [rewrite Hs, Ht, Hd, Hb; by repeat split |].
  split; [intros -> ->; by rewrite Hs, Ht |].
  intros q. destruct (start_reply_failed q r Hr) as (_ & _ & Hd' & Hb' & _).
  by split.
Qed.

Lemma C10_witness :
  start_failed refused /\
  (let p2 := exec (start_reply refused)
               (exec (start_click sample_form) (shown (loaded sample_document []))) in
   resultsBody p2 = [] /\ control_states p2 = (false, true, true)).
Proof.
  split; [right; eexists; reflexivity |].
  destruct (C10_failed_start_restores_no_table
              (shown (loaded sample_document [])) sample_form refused
              (or_intror (ex_intro _ _ eq_refl)))
    as (_ & _ & (Hb & Hd & Hs & Ht) & _).
  cbv zeta. split; [exact Hb |].
  unfold control_states. rewrite Hs, Ht, Hd. reflexivity.
Defined.

(** What the stop handler does with a reply. *)
Lemma stop_reply_effect (p : page) (r : reply) :
  let q := exec (stop_reply r) p in
  elem startButton q = elem startButton p /\
  elem downloadButton q = elem downloadButton p /\
  resultsBody q = resultsBody p /\
  same_timers p q /\
  (shows_message r = true ->
     disabled (elem stopButton q) = true /\
     forall v, reply_message r = Some v ->
       text_of v = Normal (textContent (elem statusMessage q))) /\
  (shows_message r = false ->
     elem stopButton q = elem stopButton p /\
     textContent (elem statusMessage q) = stop_failure_text).
Proof.
  cbv zeta.
  destruct (reply_message_cases r)
    as [(ok & data & t & -> & Hr & Hm & Hs & Ht)
       | (Hs & [-> | [[ok ->] | (ok & data & -> & [Hr | [Hr Ht]])]])];
    rewrite Hs.
  - unfold exec, stop_reply, try_catch, receive, assign_textContent, prop, lift.
    cbv [mbind M_bind mret M_ret]. rewrite (get_readable data) by done.
    rewrite Ht. cbn.
    repeat split; try done.
    intros v Hv. rewrite Hm in Hv. inversion Hv. subst v. exact Ht.
  - cbn. repeat split; done.
  - cbn. repeat split; done.
  - unfold exec, stop_reply, try_catch, receive, assign_textContent, prop, lift.
    cbv [mbind M_bind mret M_ret]. rewrite (get_unreadable data) by done.
    cbn. repeat split; done.
  - unfold exec, stop_reply, try_catch, receive, assign_textContent, prop, lift.
    cbv [mbind M_bind mret M_ret]. rewrite (get_readable data) by done.
    rewrite Ht. cbn. repeat split; done.
Qed.

(** C4, as the script has it. The stop handler never touches the start
    and download controls, the table or the timers. When the reply to
    the stop request has a JSON body that is not [null] and whose
    [message] can be converted to text, whatever its status, the stop
    control is disabled at once and that text is shown (for a string,
    that string). In every other case (the request fails in transport,
    the body is not JSON or is [null], the [message] is an object with a
    member called [toString]) the stop control is left as it was and the
    text of the [catch] block is shown. *)
Theorem C4_stop_reply (p : page) (r : reply) :
  let q := exec (stop_reply r) p in
  elem startButton q = elem startButton p /\
  elem downloadButton q = elem downloadButton p /\
  resultsBody q = resultsBody p /\
  same_timers p q /\
  (forall ok data s, r = Response ok (Some data) ->
     get data "message" = Normal (VStr s) ->
     disabled (elem stopButton q) = true /\
     textContent (elem statusMessage q) = s) /\
  (shows_message r = true ->
     disabled (elem stopButton q) = true /\
     forall v, reply_message r = Some v ->
       text_of v = Normal (textContent (elem statusMessage q))) /\
  (r = Rejected \/ (exists ok, r = Response ok None) ->
     elem stopButton q = elem stopButton p /\
     textContent (elem statusMessage q) = stop_failure_text) /\
  (shows_message r = false ->
     elem stopButton q = elem stopButton p /\
     textContent (elem statusMessage q) = stop_failure_text).
Proof.
  destruct (stop_reply_effect p r) as (H1 & H2 & H3 & H4 & Hyes & Hno).
  cbv zeta in *.
  split; [exact H1 |]. split; [exact H2 |]. split; [exact H3 |]. split; [exact H4 |].
  split; [| split; [exact Hyes | split; [| exact Hno]]].
  - intros ok data s -> Hg. apply get_Normal_readable in Hg as [Hread Hg].
    assert (Hs : shows_message (Response ok (Some data)) = true).
    { unfold shows_message, reply_message. by rewrite Hread, Hg. }
    destruct (Hyes Hs) as [Hd Ht]. split; [exact Hd |].
    specialize (Ht (VStr s)). unfold reply_message in Ht. rewrite Hread, Hg in Ht.
    specialize (Ht eq_refl). by inversion Ht.
  - intros [-> | [ok ->]]; by apply Hno.
Qed.

Lemma C4_witness :
  shows_message accepted = true /\
  shows_message opaque_reply = false /\
  disabled (elem stopButton (exec (stop_reply accepted) running_page)) = true /\
  elem stopButton (exec (stop_reply opaque_reply) running_page)
    = elem stopButton running_page /\
  elem stopButton (exec (stop_reply Rejected) running_page)
    = elem stopButton running_page.
Proof.
  split; [reflexivity |]. split; [reflexivity |].
  destruct (C4_stop_reply running_page accepted) as (_ & _ & _ & _ & _ & Hyes & _).
  destruct (C4_stop_reply running_page opaque_reply) as (_ & _ & _ & _ & _ & _ & _ & Hno).
  destruct (C4_stop_reply running_page Rejected) as (_ & _ & _ & _ & _ & _ & Hrej & _).
  split; [exact (proj1 (Hyes eq_refl)) |].
  split; [exact (proj1 (Hno eq_refl)) |].
  exact (proj1 (Hrej (or_introl eq_refl))).
Defined.

(** C4 as stated fails: while a job runs, a stop request that fails in
    transport leaves the stop control enabled. *)
Lemma C4_stop_stays_enabled_on_transport_failure :
  control_states running_page = (true, false, true) /\
  control_states (exec (stop_reply Rejected) running_page) = (true, false, true) /\
  option_map control_states
    (page_after (start_accepted ++ [ClickStop; ReplyArrives 0 Rejected]))
  = Some (true, false, true).
Proof. split; [| split]; vm_compute; reflexivity. Qed.

(** The same for a reply with a success status whose message cannot be
    shown: line 125 throws before line 126 is reached. *)
Example stop_reply_opaque_message :
  let q := exec (stop_reply opaque_reply) running_page in
  control_states q = (true, false, true) /\
  textContent (elem statusMessage q) = stop_failure_text.
Proof. vm_compute. split; reflexivity. Qed.

(** A refused start whose body has no [message] empties the status
    text. *)
Example start_refused_without_message :
  textContent (elem statusMessage
    (exec (start_reply (Response false (Some (VObj [])))) running_page)) = "".
Proof. vm_compute. reflexivity. Qed.
(** ** The Result Fetcher *)

(** C9. Sending the results request changes nothing, and when the
    request fails or the reply is not JSON the handler only writes to the
    console: the table, every element (the download control among them)
    and the timers are as before. *)
Theorem C9_failed_fetch_changes_nothing_shown (p : page) (r : reply) :
  fetch_failed r ->
  let q := exec (fetchAndDisplayResults r) p in
  results_request p = (Normal (GET "/get-results"), p) /\
  resultsBody q = resultsBody p /\
  (forall n, elem n q = elem n p) /\
  same_timers p q /\
  q = with_console (console p ++ ["Error fetching results:"]) p.
Proof.
  intros [-> | [ok ->]]; cbv zeta;
    unfold exec, fetchAndDisplayResults, try_catch, receive, throw; cbn;
    (split; [reflexivity |]); (split; [reflexivity |]);
    (split; [by intros [] |]); split; done.
Qed.

Lemma C9_witness :
  fetch_failed Rejected /\
  resultsBody (exec (fetchAndDisplayResults Rejected)
                 (with_resultsBody [one_row] running_page)) = [one_row].
Proof.
  split; [left; reflexivity |].
  destruct (C9_failed_fetch_changes_nothing_shown
              (with_resultsBody [one_row] running_page) Rejected
              (or_introl eq_refl)) as (_ & Hb & _).
  exact Hb.
Defined.

(** ** The start request *)

Lemma scan_no_digit (s : string) (acc cnt : Z) :
  no_digit s = true -> scan_digits decimal_digit 10 s acc cnt = (acc, cnt, s).
Proof. destruct s as [|c s]; simpl; [done |]. by destruct (decimal_digit c). Qed.

Lemma no_digit_trim_start (s : string) :
  no_digit s = true -> no_digit (trim_start s) = true.
Proof.
  induction s as [|c s IH]; simpl; [done |].
  destruct (decimal_digit c) eqn:Hc; [done |]. intros Hs.
  destruct (is_space c); [by apply IH |]. simpl. by rewrite Hc.
Qed.

Lemma no_digit_split_sign (s : string) :
  no_digit s = true -> no_digit (snd (split_sign s)) = true.
Proof.
  destruct s as [|c s]; simpl; [done |].
  destruct (decimal_digit c) eqn:Hc; [done |]. intros Hs.
  destruct (Ascii.eqb c "-"); [done |].
  destruct (Ascii.eqb c "+"); [done |]. simpl. by rewrite Hc.
Qed.

Lemma after_prefix_no_digit (lower upper : ascii) (s : string) :
  no_digit s = true -> after_prefix lower upper s = None.
Proof.
  destruct s as [|c [|d r]]; simpl; try done.
  destruct (Ascii.eqb c "0") eqn:Hc; [| done].
  apply Ascii.eqb_eq in Hc. by subst c.
Qed.

(** Text without a digit is read as [NaN] by [parseInt]. *)
Lemma parseInt_no_digit (s : string) : no_digit s = true -> parseInt s = NaN.
Proof.
  intros Hs. unfold parseInt.
  pose proof (no_digit_split_sign _ (no_digit_trim_start s Hs)) as Hr.
  destruct (split_sign (trim_start s)) as [negative s1]. simpl in Hr.
  by rewrite after_prefix_no_digit, scan_no_digit.
Qed.

(** Text without a digit is read as [NaN] or an infinity by
    [parseFloat]; [JSON.stringify] writes [null] for each. *)
Lemma parseFloat_no_digit (s : string) :
  no_digit s = true -> json_number (parseFloat s) = VNull.
Proof.
  intros Hs. unfold parseFloat, scan_signed.
  pose proof (no_digit_split_sign _ (no_digit_trim_start s Hs)) as Hr.
  destruct (split_sign (trim_start s)) as [negative s1]. simpl in Hr.
  unfold scan_unsigned.
  destruct (String.prefix "Infinity" s1); [by destruct negative |].
  rewrite scan_no_digit by done.
  destruct s1 as [|c r]; [done |].
  simpl in Hr. destruct (decimal_digit c); [done |].
  destruct (Ascii.eqb c "."); [| done].
  by rewrite scan_no_digit.
Qed.

(** C3, as the script has it. Nothing in the start handler checks the
    form: every click on the enabled start control sends the start
    request, with the configuration read from the form; a numeric field
    holding text without a digit is sent as [null]. *)
Theorem C3_start_request_is_sent_unchecked (w : world) (f : form) :
  disabled (elem startButton (shown w)) = false ->
  exists w',
    step w (ClickStart f) = Some w' /\
    inflight w' =
      inflight w ++ [(POST "/start-scraping" (Some (config f)), OnStart)] /\
    (no_digit (max_workers f) = true -> field (config f) "max_workers" = VNull) /\
    (no_digit (max_scrolls f) = true -> field (config f) "max_scrolls" = VNull) /\
    (no_digit (scroll_pause f) = true -> field (config f) "scroll_pause" = VNull) /\
    (no_digit (scrape_timeout f) = true -> field (config f) "scrape_timeout" = VNull).
Proof.
  intros Hs. eexists. split; [unfold step; rewrite Hs; reflexivity |].
  split; [reflexivity |].
  unfold field, config. cbn.
  repeat split; intros Hn;
    rewrite ?parseInt_no_digit, ?parseFloat_no_digit by done; reflexivity.
Qed.

Lemma C3_witness :
  disabled (elem startButton (shown (loaded sample_document []))) = false /\
  option_map inflight (step (loaded sample_document []) (ClickStart text_form))
  = Some [(POST "/start-scraping" (Some (config text_form)), OnStart)].
Proof.
  split; [reflexivity |].
  destruct (C3_start_request_is_sent_unchecked (loaded sample_document [])
              text_form eq_refl) as (w' & Hstep & Hin & _).
  rewrite Hstep. cbn [option_map]. rewrite Hin. reflexivity.
Defined.

(** C3 as stated fails: with text in the four numeric fields the start
    request is sent all the same, the four fields as [null]. *)
Lemma C3_request_sent_for_text_fields :
  no_digit (max_workers text_form) = true /\
  no_digit (max_scrolls text_form) = true /\
  no_digit (scroll_pause text_form) = true /\
  no_digit (scrape_timeout text_form) = true /\
  option_map inflight (step (loaded sample_document []) (ClickStart text_form))
  = Some [(POST "/start-scraping"
             (Some (VObj [("general_search_term", VStr "plumbers");
                          ("categories", VArr [VStr "A"; VStr "B"]);
                          ("zipcodes", VArr [VStr "10001"; VStr "10002"]);
                          ("max_workers", VNull);
                          ("max_scrolls", VNull);
                          ("scroll_pause", VNull);
                          ("scrape_timeout", VNull);
                          ("headless_mode", VBool true)])),
           OnStart)].
Proof. repeat split; vm_compute; reflexivity. Qed.

(** ** One polling repetition *)

Lemma resume_consistent k r p :
  consistent p -> consistent (exec (resume k r) p).
Proof.
  intros Hp. destruct k; simpl.
  - apply (poller_move_consistent p); [apply poll_tick_move | done].
  - apply (consistent_same_timers p); [apply fetch_same_timers | done].
  - apply (poller_move_consistent p); [apply start_reply_move | done].
  - apply (consistent_same_timers p); [apply stop_reply_same_timers | done].
Qed.

(** The event loop keeps the Poller consistent. *)
Lemma step_consistent w e w' :
  step w e = Some w' -> consistent (shown w) -> consistent (shown w').
Proof.
  intros Hstep Hp. destruct e as [f | | | id | i r]; unfold step in Hstep.
  - destruct (disabled (elem startButton (shown w))); [done |].
    inversion Hstep; subst w'.
    apply (consistent_same_timers (shown w)); [by split | done].
  - destruct (disabled (elem stopButton (shown w))); [done |].
    by inversion Hstep; subst w'.
  - destruct (disabled (elem downloadButton (shown w))); [done |].
    inversion Hstep; subst w'.
    apply (consistent_same_timers (shown w)); [by split | done].
  - destruct (timers (shown w) !! id) as [t |]; [| done].
    destruct (run t); by inversion Hstep; subst w'.
  - destruct (inflight w !! i) as [[req k] |]; [| done].
    inversion Hstep; subst w'. by apply resume_consistent.
Qed.

Lemma steps_consistent es w w' :
  steps w es = Some w' -> consistent (shown w) -> consistent (shown w').
Proof.
  revert w. induction es as [|e es IH]; intros w Hs Hp; simpl in Hs.
  - by inversion Hs; subst w'.
  - destruct (step w e) as [w1 |] eqn:He; [| done].
    apply (IH w1 Hs). by apply (step_consistent w e).
Qed.

(** Whatever happens on the page, at most one polling repetition is
    armed. *)
Lemma at_most_one_polling_repetition el rows es w :
  steps (loaded el rows) es = Some w -> (size (polling (shown w)) <= 1)%nat.
Proof.
  intros Hs. apply consistent_at_most_one.
  apply (steps_consistent es _ _ Hs), loaded_consistent.
Qed.

(** C5. After any sequence of [start()] and [stop()] calls on the
    Poller of a freshly loaded page, at most one polling repetition is
    armed, the one [statusInterval] holds. A further [start()] cancels
    it and arms one new repetition, so that exactly one is armed, also
    after two [start()] in a row; [stop()] leaves none armed, and a
    second [stop()] changes nothing. *)
Theorem C5_one_polling_repetition
    (el : node -> element) (rows : list row) (cs : list poller_call) :
  let p := calls cs (shown (loaded el rows)) in
  (size (polling p) <= 1)%nat /\
  polling p = held (statusInterval p) /\
  (forall id, statusInterval p = Timer id ->
     id ∉ polling (exec startPollingStatus p)) /\
  size (polling (exec startPollingStatus p)) = 1%nat /\
  size (polling (exec startPollingStatus (exec startPollingStatus p))) = 1%nat /\
  polling (exec stopPollingStatus p) = ∅ /\
  exec stopPollingStatus (exec stopPollingStatus p) = exec stopPollingStatus p.
Proof.
  cbv zeta. set (p := calls cs (shown (loaded el rows))).
  assert (Hp : consistent p) by apply calls_consistent, loaded_consistent.
  split; [by apply consistent_at_most_one |].
  split; [apply Hp |].
  split.
  { intros id Hid.
    destruct (start_consistent p Hp) as [Hq _]. rewrite Hq.
    unfold exec. rewrite start_run. cbn [snd statusInterval with_statusInterval held].
    destruct Hp as [Hpoll Hnext].
    assert (id ∈ dom (timers p)) as Hin.
    { apply (dom_filter_subseteq (fun kv => run (snd kv) = PollStatus)).
      fold (polling p). rewrite Hpoll, Hid. cbn [held]. by apply elem_of_singleton. }
    apply Hnext in Hin. intros Heq%elem_of_singleton. lia. }
  split; [by apply start_exactly_one |].
  split; [by apply start_exactly_one, start_consistent |].
  split; [| apply stop_idempotent].
  destruct (stop_consistent p Hp) as [Hq _]. rewrite Hq.
  unfold exec. by rewrite stop_run.
Qed.


(** ** Start enabled means stop disabled *)

Lemma fetch_keeps_start_stop r : respects keeps_start_stop (fetchAndDisplayResults r).
Proof.
  unfold fetchAndDisplayResults. respects_steps;
    first [ apply forEach_row_respects; [exact _ | intros row; respects_modify_with ltac:(by split)]
          | respects_modify_with ltac:(by split) ].
Qed.

Lemma fetch_start_stop r p :
  let q := exec (fetchAndDisplayResults r) p in
  elem startButton q = elem startButton p /\ elem stopButton q = elem stopButton p.
Proof. apply fetch_keeps_start_stop. Qed.

Lemma keeps_flags_unlocked p q :
  keeps_flags p q -> unlocked_stop_disabled p -> unlocked_stop_disabled q.
Proof. intros H Hp. unfold unlocked_stop_disabled. by rewrite !H. Qed.

Lemma poll_catch_keeps_flags : respects keeps_flags poll_catch.
Proof. intros p. by destruct (poll_catch_effect p) as (_ & _ & H & _). Qed.

Lemma poll_tick_unlocked r p :
  unlocked_stop_disabled p -> unlocked_stop_disabled (exec (poll_tick r) p).
Proof.
  intros Hp. destruct r as [| ok [data |]].
  - rewrite poll_tick_failed by by left.
    apply (keeps_flags_unlocked p); [apply poll_catch_keeps_flags | done].
  - destruct (renders data) eqn:Hr.
    + rewrite poll_tick_renders by done. cbv zeta.
      destruct (negb _ && _).
      * destruct (finish_effect data (exec (updateUI data) p) (renders_readable _ Hr))
          as (_ & _ & _ & Hstop & _).
        intros _. exact Hstop.
      * apply (keeps_flags_unlocked p); [apply updateUI_keeps_flags | done].
    + destruct (tick_caught ok data p Hr) as (H & _).
      by apply (keeps_flags_unlocked p).
  - rewrite poll_tick_failed by (right; by exists ok).
    apply (keeps_flags_unlocked p); [apply poll_catch_keeps_flags | done].
Qed.

Lemma start_reply_unlocked r p :
  unlocked_stop_disabled p -> unlocked_stop_disabled (exec (start_reply r) p).
Proof.
  intros Hp.
  destruct r as [| [|] body];
    try (intros _; apply start_reply_failed; by (left + (right; eexists))).
  destruct (reply_message_cases (Response true body))
    as [(ok & data & t & Heq & Hr & _ & _ & Ht)
       | (_ & [Heq | [[ok Heq] | (ok & data & Heq & [Hr | [Hr Ht]])]])];
    inversion Heq; subst.
  - unfold exec, start_reply, try_catch, receive, assign_textContent, prop, lift.
    cbv [mbind M_bind mret M_ret]. rewrite (get_readable data) by done.
    rewrite Ht. cbv [set_textContent modify]. rewrite start_run. cbn [snd]. cbv zeta.
    unfold unlocked_stop_disabled in *.
    destruct (statusInterval _); exact Hp.
  - intros _. reflexivity.
  - unfold exec, start_reply, try_catch, receive, assign_textContent, prop, lift.
    cbv [mbind M_bind mret M_ret]. rewrite (get_unreadable data) by done.
    intros _. reflexivity.
  - unfold exec, start_reply, try_catch, receive, assign_textContent, prop, lift.
    cbv [mbind M_bind mret M_ret]. rewrite (get_readable data) by done.
    rewrite Ht. intros _. reflexivity.
Qed.

Lemma stop_reply_unlocked r p :
  unlocked_stop_disabled p -> unlocked_stop_disabled (exec (stop_reply r) p).
Proof.
  intros Hp. destruct (stop_reply_effect p r) as (Hs & _ & _ & _ & Hyes & Hno).
  cbv zeta in *. unfold unlocked_stop_disabled. rewrite Hs.
  destruct (shows_message r).
  - intros _. by apply Hyes.
  - destruct (Hno eq_refl) as [-> _]. exact Hp.
Qed.

Lemma step_unlocked w e w' :
  step w e = Some w' ->
  unlocked_stop_disabled (shown w) -> unlocked_stop_disabled (shown w').
Proof.
  intros Hstep Hp. destruct e as [f | | | id | i r]; unfold step in Hstep.
  - destruct (disabled (elem startButton (shown w))); [done |].
    inversion Hstep; subst w'. intros H. discriminate H.
  - destruct (disabled (elem stopButton (shown w))); [done |].
    by inversion Hstep; subst w'.
  - destruct (disabled (elem downloadButton (shown w))); [done |].
    inversion Hstep; subst w'. exact Hp.
  - destruct (timers (shown w) !! id) as [t |]; [| done].
    destruct (run t); by inversion Hstep; subst w'.
  - destruct (inflight w !! i) as [[req k] |]; [| done].
    inversion Hstep; subst w'. cbn [shown]. destruct k; cbn [resume].
    + by apply poll_tick_unlocked.
    + destruct (fetch_start_stop r (shown w)) as [Hs Ht].
      unfold unlocked_stop_disabled. rewrite Hs, Ht. exact Hp.
    + by apply start_reply_unlocked.
    + by apply stop_reply_unlocked.
Qed.

(** On a page whose document has the stop control disabled, every start
    click is made with the stop control disabled. *)
Lemma click_finds_stop_disabled el rows es w f w' :
  disabled (el stopButton) = true ->
  steps (loaded el rows) es = Some w ->
  step w (ClickStart f) = Some w' ->
  disabled (elem startButton (shown w)) = false /\
  disabled (elem stopButton (shown w)) = true.
Proof.
  intros Hel Hs Hclick.
  assert (Hinv : unlocked_stop_disabled (shown w)).
  { assert (H0 : unlocked_stop_disabled (shown (loaded el rows))) by (intros _; exact Hel).
    clear Hclick. revert H0 Hs. generalize (loaded el rows). 
    induction es as [|e es IH]; intros w0 H0 Hs; simpl in Hs.
    - by inversion Hs; subst w.
    - destruct (step w0 e) as [w1 |] eqn:He; [| done].
      apply (IH w1); [by apply (step_unlocked w0 e) | done]. }
  unfold step in Hclick.
  destruct (disabled (elem startButton (shown w))) eqn:Hstart; [done |].
  split; [done | by apply Hinv].
Qed.
